(** * In-conversation message search: a model of
      [history/view/controls/history_view_compose_search.cpp]

    The file embeds the four state-carrying classes of the compose search
    ([TopBar], [BottomBar], [ApiSearch], [ComposeSearch::Inner]) as state
    records with one function per member function or subscribed handler.
    Event streams ([rpl::event_stream]) are synchronous: firing one runs the
    subscribed handlers before [fire] returns.  A handler is therefore a
    function from the state to the new state and the list of things it
    caused outside the modelled classes, in the order they happened. *)

From Stdlib Require Import ZArith List String Bool Lia.
Import ListNotations.
Open Scope Z_scope.

(** ** The C++ [int] *)

(** [int] is the 32-bit two's complement integer of the supported
    platforms.  Values are kept in [Z]; every arithmetic result and every
    conversion from a container size is brought back into the range by
    [wrap]. *)
Module Int.

Definition min_value : Z := -2147483648.
Definition max_value : Z := 2147483647.

Definition in_range (z : Z) : Prop := min_value <= z <= max_value.

Definition wrap (z : Z) : Z :=
  (z + 2147483648) mod 4294967296 - 2147483648.

Definition add (a b : Z) : Z := wrap (a + b).
Definition sub (a b : Z) : Z := wrap (a - b).

(** [int(container.size())] *)
Definition of_size (n : nat) : Z := wrap (Z.of_nat n).

End Int.

(** ** Values exchanged with the search adapter *)

(** [PeerData *]: a peer is identified by its id, [nullptr] is [None]. *)
Definition PeerId := Z.
Definition PeerPtr := option PeerId.

Definition PeerPtr_eqb (a b : PeerPtr) : bool :=
  match a, b with
  | None, None => true
  | Some x, Some y => x =? y
  | _, _ => false
  end.

Record FullMsgId := mkFullMsgId { peer : Z; msg : Z }.

(** [FullMsgId{}] *)
Definition nullMsgId : FullMsgId := mkFullMsgId 0 0.

Definition FullMsgId_eqb (a b : FullMsgId) : bool :=
  (peer a =? peer b) && (msg a =? msg b).

Definition MessageIdsList := list FullMsgId.

Record SearchRequest := mkSearchRequest {
  query : string;
  from : PeerPtr
}.

Record FoundMessages := mkFoundMessages {
  total : Z;
  messages : MessageIdsList;
  nextToken : string
}.

(** Modelled from the spec: the declaration of [Api::FoundMessages]
    ([api/api_messages_search.h]) and with it the value of [FoundMessages{}].
    The spec gives [total] the sentinel [-1] for "unknown", an empty message
    sequence and an empty continuation token. *)
Definition emptyFound : FoundMessages := mkFoundMessages (-1) [] EmptyString.

Definition setTotalOf (n : Z) (f : FoundMessages) : FoundMessages :=
  mkFoundMessages n (messages f) (nextToken f).

Definition setMessagesOf (l : MessageIdsList) (f : FoundMessages)
  : FoundMessages :=
  mkFoundMessages (total f) l (nextToken f).

(** ** [ApiSearch]: the merger of the two result streams *)

Module ApiSearch.

Inductive Source := Primary | Migrated.

(** What a member function or handler of [ApiSearch] causes outside the
    object: a fired signal, or a call of one of the two
    [Api::MessagesSearch] adapters. *)
Inductive Output :=
| FireNewFounds
| FireNextFounds
| SearchMessages (src : Source) (q : string) (f : PeerPtr)
| SearchMore (src : Source).

Record t := mk {
  migratedSearch : bool;        (* is the optional engaged *)
  migratedFirstFound : FoundMessages;
  concatedFound : FoundMessages;
  waitingForTotal : bool;
  isFull : bool
}.

Definition setMigratedFirstFound (f : FoundMessages) (s : t) : t :=
  mk (migratedSearch s) f (concatedFound s) (waitingForTotal s) (isFull s).
Definition setConcatedFound (f : FoundMessages) (s : t) : t :=
  mk (migratedSearch s) (migratedFirstFound s) f (waitingForTotal s)
     (isFull s).
Definition setWaitingForTotal (b : bool) (s : t) : t :=
  mk (migratedSearch s) (migratedFirstFound s) (concatedFound s) b
     (isFull s).
Definition setIsFull (b : bool) (s : t) : t :=
  mk (migratedSearch s) (migratedFirstFound s) (concatedFound s)
     (waitingForTotal s) b.

(** The constructor: [_migratedSearch] is engaged when the history has a
    [migrateFrom()]. *)
Definition init (migrateFrom : bool) : t :=
  mk migrateFrom emptyFound emptyFound false false.

Definition push_back (l : MessageIdsList) (m : FullMsgId) : MessageIdsList :=
  l ++ [m].

Definition addFound (data : FoundMessages) (s : t) : t :=
  setConcatedFound
    (setMessagesOf
       (fold_left push_back (messages data) (messages (concatedFound s)))
       (concatedFound s))
    s.

Definition checkWaitingForTotal (s : t) : t * list Output :=
  if waitingForTotal s then
    if (0 <=? total (concatedFound s))
       && (0 <=? total (migratedFirstFound s))
    then
      let s1 := setWaitingForTotal false s in
      let s2 :=
        setConcatedFound
          (setTotalOf
             (Int.add (total (concatedFound s1))
                      (total (migratedFirstFound s1)))
             (concatedFound s1))
          s1 in
      (s2, [FireNewFounds])
    else (s, [])
  else (s, [FireNewFounds]).

Definition checkFull (data : FoundMessages) (s : t) : t :=
  if total data =? Int.of_size (List.length (messages (concatedFound s))) then
    let s1 := setIsFull true s in
    addFound (migratedFirstFound s1) s1
  else s.

(** The handler subscribed to [_apiSearch.messagesFounds()]. *)
Definition primaryFound (data : FoundMessages) (s : t) : t * list Output :=
  if String.eqb (nextToken data) (nextToken (concatedFound s)) then
    let s1 := addFound data s in
    let s2 := checkFull data s1 in
    (s2, [FireNextFounds])
  else
    let s1 := setConcatedFound data s in
    let s2 := checkFull data s1 in
    checkWaitingForTotal s2.

(** The handler subscribed to [_migratedSearch->messagesFounds()]; the
    subscription exists only when [_migratedSearch] is engaged. *)
Definition migratedFound (data : FoundMessages) (s : t) : t * list Output :=
  if migratedSearch s then
    let s1 := if isFull s then addFound data s else s in
    if String.eqb (nextToken data) (nextToken (migratedFirstFound s1)) then
      (s1, [FireNextFounds])
    else
      let s2 := setMigratedFirstFound data s1 in
      checkWaitingForTotal s2
  else (s, []).

Definition clear (s : t) : t :=
  setMigratedFirstFound emptyFound (setConcatedFound emptyFound s).

Definition search (r : SearchRequest) (s : t) : t * list Output :=
  if migratedSearch s then
    (setWaitingForTotal true s,
     [SearchMessages Migrated (query r) (from r);
      SearchMessages Primary (query r) (from r)])
  else
    (s, [SearchMessages Primary (query r) (from r)]).

Definition searchMore (s : t) : t * list Output :=
  if migratedSearch s && isFull s then (s, [SearchMore Migrated])
  else (s, [SearchMore Primary]).

(** The events of the merger, and a run over a sequence of them. *)
Inductive Event :=
| Clear
| Search (r : SearchRequest)
| More
| PrimaryPage (data : FoundMessages)
| MigratedPage (data : FoundMessages).

Definition step (e : Event) (s : t) : t * list Output :=
  match e with
  | Clear => (clear s, [])
  | Search r => search r s
  | More => searchMore s
  | PrimaryPage data => primaryFound data s
  | MigratedPage data => migratedFound data s
  end.

Fixpoint run (es : list Event) (s : t) : t * list Output :=
  match es with
  | [] => (s, [])
  | e :: es' =>
      let (s1, o1) := step e s in
      let (s2, o2) := run es' s1 in
      (s2, o1 ++ o2)
  end.

End ApiSearch.

(** ** [TopBar]: the query input with its cache of typed requests *)

Module TopBar.

Inductive Output :=
| FireSearchRequest (r : SearchRequest)
| FireQueryChanges.

Record t := mk {
  selectQuery : string;         (* _select->getQuery() *)
  selectItems : list PeerId;    (* the chips of _select *)
  fromPeer : PeerPtr;           (* _from *)
  searchTimerActive : bool;     (* _searchTimer is armed *)
  typedRequests : list SearchRequest
}.

Definition setSelectQuery (q : string) (s : t) : t :=
  mk q (selectItems s) (fromPeer s) (searchTimerActive s) (typedRequests s).
Definition setSelectItems (l : list PeerId) (s : t) : t :=
  mk (selectQuery s) l (fromPeer s) (searchTimerActive s) (typedRequests s).
Definition setFromPeer (p : PeerPtr) (s : t) : t :=
  mk (selectQuery s) (selectItems s) p (searchTimerActive s)
     (typedRequests s).
Definition setSearchTimerActive (b : bool) (s : t) : t :=
  mk (selectQuery s) (selectItems s) (fromPeer s) b (typedRequests s).
Definition setTypedRequests (l : list SearchRequest) (s : t) : t :=
  mk (selectQuery s) (selectItems s) (fromPeer s) (searchTimerActive s) l.

Definition init : t := mk EmptyString [] None false [].

Definition requestSearch (cache : bool) (s : t) : t * list Output :=
  let search := mkSearchRequest (selectQuery s) (fromPeer s) in
  let s1 :=
    if cache then setTypedRequests (typedRequests s ++ [search]) s else s in
  (s1, [FireSearchRequest search]).

(** The loop over [_typedRequests] with its early [return]. *)
Fixpoint typedBefore (q : string) (f : PeerPtr) (ts : list SearchRequest)
  : bool :=
  match ts with
  | [] => false
  | r :: ts' =>
      if String.eqb (query r) q && PeerPtr_eqb (from r) f then true
      else typedBefore q f ts'
  end.

Definition requestSearchDelayed (s : t) : t * list Output :=
  if typedBefore (selectQuery s) (fromPeer s) (typedRequests s) then
    requestSearch false s
  else
    (* _searchTimer.callOnce(AutoSearchTimeout) *)
    (setSearchTimerActive true s, []).

(** The query-changed callback of [_select], called with the text [q]
    that the field now holds. *)
Definition queryChanged (q : string) (s : t) : t * list Output :=
  let (s1, o1) := requestSearchDelayed (setSelectQuery q s) in
  (s1, o1 ++ [FireQueryChanges]).

(** The submitted callback of [_select]. *)
Definition submitted (s : t) : t * list Output := requestSearch true s.

(** The callback of [_searchTimer]; a timer that is not armed does not
    fire, and [callOnce] disarms it when it does. *)
Definition searchTimerFired (s : t) : t * list Output :=
  if searchTimerActive s then
    requestSearch true (setSearchTimerActive false s)
  else (s, []).

(** The item-removed callback installed by [clearItems]: the user removed
    the chip of the sender. *)
Definition itemRemoved (id : PeerId) (s : t) : t * list Output :=
  let s1 :=
    setSelectItems
      (filter (fun i => negb (i =? id)) (selectItems s)) s in
  requestSearchDelayed (setFromPeer None s1).

Definition clearItems (s : t) : t := setSelectItems [] s.

Definition setFrom (p : PeerPtr) (s : t) : t * list Output :=
  let s1 := clearItems s in
  let s2 :=
    match p with
    | None => s1
    | Some id => setSelectItems (selectItems s1 ++ [id]) s1
    end in
  (* the gsl::finally guard *)
  requestSearchDelayed (setFromPeer p s2).

End TopBar.

(** ** [BottomBar]: the pager *)

Module BottomBar.

Definition Index := Z.

Inductive CounterText :=
| NoText                          (* QString() *)
| NOfAmount (n amount : Z)        (* lng_search_messages_n_of_amount *)
| NoneFound.                      (* lng_search_messages_none *)

Record t := mk {
  barTotal : Z;                   (* _total *)
  barCurrent : Z;                 (* _current *)
  nextTransparent : bool;         (* WA_TransparentForMouseEvents of _next *)
  previousTransparent : bool;     (* ... of _previous *)
  showListTransparent : bool;     (* ... of _showList *)
  counter : CounterText
}.

Definition updateText (current : Z) (b : t) : t :=
  mk (barTotal b) (barCurrent b) (nextTransparent b)
     (previousTransparent b) (showListTransparent b)
     (if barTotal b <? 0 then NoText
      else if negb (barTotal b =? 0) then NOfAmount current (barTotal b)
      else NoneFound).

(** The handler subscribed to [_current.value()]. *)
Definition currentValue (current : Z) (b : t) : t :=
  let nextDisabled := (current <=? 0) || (barTotal b <=? current) in
  let prevDisabled := (current <=? 1) in
  updateText current
    (mk (barTotal b) (barCurrent b) nextDisabled prevDisabled
        (nextDisabled && prevDisabled) (counter b)).

(** [rpl::variable<int>::force_assign]: stores the value and fires it to
    the subscribers of [value()] and of [changes()], equal to the old
    value or not.  [showItemRequests()] is [changes()] mapped by
    [_1 - 1]; the list of the result holds what it produced. *)
Definition force_assign (v : Z) (b : t) : t * list Index :=
  let b1 :=
    mk (barTotal b) v (nextTransparent b) (previousTransparent b)
       (showListTransparent b) (counter b) in
  (currentValue v b1, [Int.sub v 1]).

(** [rpl::variable<int>::operator=]: fires only a changed value. *)
Definition assign (v : Z) (b : t) : t * list Index :=
  if v =? barCurrent b then (b, []) else force_assign v b.

Definition setCurrent (current : Z) (b : t) : t * list Index :=
  force_assign current b.

Definition setTotal (n : Z) (b : t) : t * list Index :=
  setCurrent 1
    (mk n (barCurrent b) (nextTransparent b) (previousTransparent b)
        (showListTransparent b) (counter b)).

(** The handler of the merged clicks: [_current = _current.current() + way]. *)
Definition stepBy (way : Z) (b : t) : t * list Index :=
  assign (Int.add (barCurrent b) way) b.

(** A click on [_next] / [_previous].  A button that has
    [WA_TransparentForMouseEvents] set receives no mouse event, so its
    [clicks()] produce nothing. *)
Definition clickNext (b : t) : t * list Index :=
  if nextTransparent b then (b, []) else stepBy 1 b.

Definition clickPrevious (b : t) : t * list Index :=
  if previousTransparent b then (b, []) else stepBy (-1) b.

(** The constructor: [_total = -1], [_current = 0], and the subscription
    to [_current.value()] runs its handler once with the initial value. *)
Definition init : t := currentValue 0 (mk (-1) 0 false false false NoText).

Inductive Step := Forward | Backward.

Definition click (c : Step) (b : t) : t * list Index :=
  match c with
  | Forward => clickNext b
  | Backward => clickPrevious b
  end.

Fixpoint clicks (cs : list Step) (b : t) : t * list Index :=
  match cs with
  | [] => (b, [])
  | c :: cs' =>
      let (b1, o1) := click c b in
      let (b2, o2) := clicks cs' b1 in
      (b2, o1 ++ o2)
  end.

End BottomBar.

(** ** [ComposeSearch::Inner]: the orchestrator *)

Module Inner.

(** [_pendingJump.data]; the default member initialisers give
    [noPendingJump]. *)
Record PendingJump := mkPendingJump {
  token : string;
  index : BottomBar.Index
}.

Definition noPendingJump : PendingJump := mkPendingJump EmptyString (-1).

(** What the orchestrator causes outside the four modelled classes, and
    the values its two index streams carry.  Whether the list container is
    shown is widget state outside the model: [hideList] is recorded as the
    request [HideList], the toggle of the show-list button as
    [ToggleList]. *)
Inductive Effect :=
| RemoteSearch (src : ApiSearch.Source) (q : string) (f : PeerPtr)
| RemoteSearchMore (src : ApiSearch.Source)
| JumpToChatListEntry (id : FullMsgId)
| HideList
| ToggleList
| ResetScroll
| ShowItemRequested (i : BottomBar.Index) (* _bottomBar->showItemRequests() *)
| PendingJumpFired (i : BottomBar.Index). (* _pendingJump.jumps.fire_copy *)

Record t := mk {
  topBar : TopBar.t;
  bottomBar : BottomBar.t;
  listRows : list FullMsgId;    (* the rows given to the list delegate *)
  apiSearch : ApiSearch.t;
  pendingJump : PendingJump
}.

Definition setTopBar (x : TopBar.t) (s : t) : t :=
  mk x (bottomBar s) (listRows s) (apiSearch s) (pendingJump s).
Definition setBottomBar (x : BottomBar.t) (s : t) : t :=
  mk (topBar s) x (listRows s) (apiSearch s) (pendingJump s).
Definition setListRows (x : list FullMsgId) (s : t) : t :=
  mk (topBar s) (bottomBar s) x (apiSearch s) (pendingJump s).
Definition setApiSearch (x : ApiSearch.t) (s : t) : t :=
  mk (topBar s) (bottomBar s) (listRows s) x (pendingJump s).
Definition setPendingJump (x : PendingJump) (s : t) : t :=
  mk (topBar s) (bottomBar s) (listRows s) (apiSearch s) x.

Definition init (migrateFrom : bool) : t :=
  mk TopBar.init BottomBar.init [] (ApiSearch.init migrateFrom)
     noPendingJump.

(** Handlers: state in, state and effects out. *)
Definition Handler := t -> t * list Effect.

Definition skip : Handler := fun s => (s, []).
Definition emit (e : Effect) : Handler := fun s => (s, [e]).
Definition update (f : t -> t) : Handler := fun s => (f s, []).
Definition andThen (h1 h2 : Handler) : Handler :=
  fun s =>
    let (s1, o1) := h1 s in
    let (s2, o2) := h2 s1 in
    (s2, o1 ++ o2).

Notation "h1 ;; h2" := (andThen h1 h2) (at level 61, right associativity).

Fixpoint forEach {A : Type} (h : A -> Handler) (l : list A) : Handler :=
  match l with
  | [] => skip
  | a :: l' => h a ;; forEach h l'
  end.

(** [_apiSearch.messages()] is a reference to the live accumulator. *)
Definition withApiData (k : FoundMessages -> Handler) : Handler :=
  fun s => k (ApiSearch.concatedFound (apiSearch s)) s.

(** The calls that [ApiSearch] makes on its adapters leave the model. *)
Definition adapterCall (o : ApiSearch.Output) : list Effect :=
  match o with
  | ApiSearch.SearchMessages src q f => [RemoteSearch src q f]
  | ApiSearch.SearchMore src => [RemoteSearchMore src]
  | ApiSearch.FireNewFounds | ApiSearch.FireNextFounds => []
  end.

Definition apiSearchMore : Handler :=
  fun s =>
    let (a, os) := ApiSearch.searchMore (apiSearch s) in
    (setApiSearch a s, flat_map adapterCall os).

Definition hideList : Handler := emit HideList.

Section WithOwner.

(** Does [_history->owner().message(id)] find the message? *)
Variable ownerMessage : FullMsgId -> bool.

Definition goToMessage (itemId : FullMsgId) : Handler :=
  if ownerMessage itemId then emit (JumpToChatListEntry itemId) else skip.

(** The handler of the merged index streams (pending jumps that are
    [>= 0], and the requests of the bottom bar). *)
Definition showItem (index : BottomBar.Index) : Handler :=
  withApiData (fun apiData =>
    let size := Int.of_size (List.length (messages apiData)) in
    (if (Int.sub size 1 <=? index) && negb (size =? total apiData)
     then apiSearchMore else skip) ;;
    withApiData (fun apiData =>
      if (size <=? index) || (index <? 0) then
        update (setPendingJump (mkPendingJump (nextToken apiData) index))
      else
        update (setPendingJump noPendingJump) ;;
        goToMessage (nth (Z.to_nat index) (messages apiData) nullMsgId) ;;
        hideList)).

(** A member function of the bottom bar called by the orchestrator, or a
    click on the bar: whatever [showItemRequests()] produces goes to
    [showItem]. *)
Definition onBottomBar
  (op : BottomBar.t -> BottomBar.t * list BottomBar.Index) : Handler :=
  fun s =>
    let (b, produced) := op (bottomBar s) in
    forEach (fun i => emit (ShowItemRequested i) ;; showItem i) produced
            (setBottomBar b s).

(** [ranges::find] and [std::distance]. *)
Fixpoint findIndex (id : FullMsgId) (l : MessageIdsList) : option nat :=
  match l with
  | [] => None
  | m :: l' =>
      if FullMsgId_eqb m id then Some O
      else option_map S (findIndex id l')
  end.

(** The handler subscribed to [_list.controller->showItemRequests()]. *)
Definition listShowItem (id : FullMsgId) : Handler :=
  withApiData (fun apiData =>
    match findIndex id (messages apiData) with
    | Some pos =>
        onBottomBar (BottomBar.setCurrent (Int.wrap (Z.of_nat pos + 1)))
    | None => skip
    end).

Definition appendRow (rows : list FullMsgId) (id : FullMsgId)
  : list FullMsgId :=
  if ownerMessage id then rows ++ [id] else rows.

(** [ListController::addItems]. *)
Definition addItems (ids : MessageIdsList) (clear : bool) : Handler :=
  (if clear then emit ResetScroll ;; update (setListRows [])
   else skip) ;;
  update (fun s => setListRows (fold_left appendRow ids (listRows s)) s) ;;
  (fun s =>
     match listRows s with
     | [] => listShowItem nullMsgId s
     | _ :: _ => skip s
     end).

(** The handler subscribed to [_apiSearch.newFounds()]. *)
Definition newFounds : Handler :=
  withApiData (fun apiData =>
    onBottomBar (BottomBar.setTotal (total apiData))) ;;
  withApiData (fun apiData => addItems (messages apiData) true).

(** The handler subscribed to [_apiSearch.nextFounds()]. *)
Definition nextFounds : Handler :=
  (fun s =>
     if String.eqb (token (pendingJump s))
          (nextToken (ApiSearch.concatedFound (apiSearch s)))
     then
       (emit (PendingJumpFired (index (pendingJump s))) ;;
        (if 0 <=? index (pendingJump s)
         then showItem (index (pendingJump s)) else skip)) s
     else skip s) ;;
  withApiData (fun apiData => addItems (messages apiData) false).

Definition apiOutput (o : ApiSearch.Output) : Handler :=
  match o with
  | ApiSearch.FireNewFounds => newFounds
  | ApiSearch.FireNextFounds => nextFounds
  | _ => fun s => (s, adapterCall o)
  end.

(** A member function or a handler of [ApiSearch] runs, and what it
    fires reaches the handlers above. *)
Definition onApiSearch
  (op : ApiSearch.t -> ApiSearch.t * list ApiSearch.Output) : Handler :=
  fun s =>
    let (a, os) := op (apiSearch s) in
    forEach apiOutput os (setApiSearch a s).

(** The handler subscribed to [_topBar->searchRequests()]. *)
Definition searchRequested (search : SearchRequest) : Handler :=
  if String.eqb (query search) EmptyString
     && match from search with None => true | Some _ => false end
  then skip
  else
    onApiSearch (fun a => (ApiSearch.clear a, [])) ;;
    onApiSearch (ApiSearch.search search).

Definition topBarOutput (o : TopBar.Output) : Handler :=
  match o with
  | TopBar.FireSearchRequest r => searchRequested r
  | TopBar.FireQueryChanges => hideList
  end.

Definition onTopBar
  (op : TopBar.t -> TopBar.t * list TopBar.Output) : Handler :=
  fun s =>
    let (b, os) := op (topBar s) in
    forEach topBarOutput os (setTopBar b s).

(** The handler subscribed to [_list.controller->searchMoreRequests()]. *)
Definition searchMoreRequested : Handler :=
  withApiData (fun apiData =>
    if negb (Int.of_size (List.length (messages apiData)) =? total apiData)
    then apiSearchMore else skip).

(** The handler subscribed to [_bottomBar->showListRequests()]; the
    click reaches [_showList] only when it is not transparent. *)
Definition showListClicked : Handler :=
  fun s =>
    if BottomBar.showListTransparent (bottomBar s) then skip s
    else emit ToggleList s.

(** What happens to the orchestrator: the user at the top bar, the
    bottom bar or the list, the debounce timer, and the two adapters
    delivering a page. *)
Inductive Event :=
| QueryChanged (q : string)
| Submitted
| SearchTimerFired
| ItemRemoved (id : PeerId)
| FromChosen (p : PeerId)
| ClickNext
| ClickPrevious
| ClickShowList
| RowClicked (id : FullMsgId)
| LoadMoreRows
| PrimaryPage (data : FoundMessages)
| MigratedPage (data : FoundMessages).

Definition step (e : Event) : Handler :=
  match e with
  | QueryChanged q => onTopBar (TopBar.queryChanged q)
  | Submitted => onTopBar TopBar.submitted
  | SearchTimerFired => onTopBar TopBar.searchTimerFired
  | ItemRemoved id => onTopBar (TopBar.itemRemoved id)
  | FromChosen p => onTopBar (TopBar.setFrom (Some p))
  | ClickNext => onBottomBar BottomBar.clickNext
  | ClickPrevious => onBottomBar BottomBar.clickPrevious
  | ClickShowList => showListClicked
  | RowClicked id => listShowItem id
  | LoadMoreRows => searchMoreRequested
  | PrimaryPage data => onApiSearch (ApiSearch.primaryFound data)
  | MigratedPage data => onApiSearch (ApiSearch.migratedFound data)
  end.

Definition run (es : list Event) : Handler := forEach step es.

End WithOwner.

End Inner.

(** ** Observations used in the statements *)


(** The adapter calls for a further page, in order. *)
Definition fetchMoreCalls (effects : list Inner.Effect)
  : list ApiSearch.Source :=
  flat_map
    (fun e => match e with Inner.RemoteSearchMore src => [src] | _ => [] end)
    effects.

(** The source that [ApiSearch::searchMore] asks. *)
Definition activeSource (a : ApiSearch.t) : ApiSearch.Source :=
  if ApiSearch.migratedSearch a && ApiSearch.isFull a
  then ApiSearch.Migrated else ApiSearch.Primary.

(** A page that continues the accumulator: it carries the token [tok]. *)
Definition continues (tok : string) (e : ApiSearch.Event) : Prop :=
  match e with
  | ApiSearch.PrimaryPage data | ApiSearch.MigratedPage data =>
      nextToken data = tok
  | _ => False
  end.

(** The loaded messages of the merger and of the orchestrator. *)
Definition loaded (a : ApiSearch.t) : MessageIdsList :=
  messages (ApiSearch.concatedFound a).

Definition combinedTotal (a : ApiSearch.t) : Z :=
  total (ApiSearch.concatedFound a).

(** ** Properties of states and handlers *)

(** Without a migrated source the merger never waits for a total, and no
    event changes whether there is a migrated source. *)
Definition settled (mig : bool) (s : ApiSearch.t) : Prop :=
  ApiSearch.migratedSearch s = mig /\
  (mig = false -> ApiSearch.waitingForTotal s = false).

(** [l'] is [l] with messages appended. *)
Definition extends (l l' : MessageIdsList) : Prop :=
  exists suffix, l' = l ++ suffix.

(** What holds of the bar between two events once a total [n] was set. *)
Definition consistent (n : Z) (b : BottomBar.t) : Prop :=
  BottomBar.barTotal b = n /\
  1 <= BottomBar.barCurrent b <= Z.max 1 n /\
  BottomBar.nextTransparent b =
    ((BottomBar.barCurrent b <=? 0) || (n <=? BottomBar.barCurrent b)) /\
  BottomBar.previousTransparent b = (BottomBar.barCurrent b <=? 1).



Definition keepsMerger (h : Inner.Handler) : Prop :=
  forall s, Inner.apiSearch (fst (h s)) = Inner.apiSearch s.

(** ** Concrete chats and searches *)

(** Messages of the chat (peer 1) and of its migrated predecessor
    (peer 2); a message store that knows every message. *)
Definition msgP (k : Z) : FullMsgId := mkFullMsgId 1 k.
Definition msgM (k : Z) : FullMsgId := mkFullMsgId 2 k.
Definition everyMessage (_ : FullMsgId) : bool := true.

Definition request (q : string) : SearchRequest := mkSearchRequest q None.

(** Scenario B of the spec: nothing found in the chat, one message in its
    predecessor. *)
Definition emptyPrimary : FoundMessages := mkFoundMessages 0 [] "t1".
Definition oneMigrated : FoundMessages := mkFoundMessages 1 [msgM 9] "t1".

(** Two pages of a search with ten results. *)
Definition threeOfTen : FoundMessages :=
  mkFoundMessages 10 [msgP 1; msgP 2; msgP 3] "q0".
Definition nextThree : FoundMessages :=
  mkFoundMessages 10 [msgP 4; msgP 5; msgP 6] "q0".

(** The orchestrator of a chat without a migrated predecessor after the
    first page [threeOfTen] of a search. *)
Definition threeLoaded : Inner.t :=
  fst (Inner.step everyMessage (Inner.PrimaryPage threeOfTen)
         (Inner.init false)).

(** A first search in a chat with a migrated predecessor, whose only
    primary result arrives with the first page. *)
Definition firstSearch : list ApiSearch.Event :=
  [ApiSearch.Clear; ApiSearch.Search (request "a");
   ApiSearch.PrimaryPage (mkFoundMessages 1 [msgP 1] "a0");
   ApiSearch.MigratedPage (mkFoundMessages 0 [] "a0")].

(** The next search: three of ten primary results, then the first page of
    the migrated source. *)
Definition secondSearch : list ApiSearch.Event :=
  [ApiSearch.Clear; ApiSearch.Search (request "b");
   ApiSearch.PrimaryPage (mkFoundMessages 10 [msgP 2; msgP 3; msgP 4] "b0");
   ApiSearch.MigratedPage (mkFoundMessages 1 [msgM 9] "b0")].



(** ** Further events and widgets *)

(** What happens to the top bar, and a run over a sequence of it. *)
Inductive TopBarEvent :=
| TypeQuery (q : string)
| Submit
| TimerFires
| RemoveItem (id : PeerId)
| ChooseFrom (p : PeerPtr).

Definition topBarStep (e : TopBarEvent) (s : TopBar.t)
  : TopBar.t * list TopBar.Output :=
  match e with
  | TypeQuery q => TopBar.queryChanged q s
  | Submit => TopBar.submitted s
  | TimerFires => TopBar.searchTimerFired s
  | RemoveItem id => TopBar.itemRemoved id s
  | ChooseFrom p => TopBar.setFrom p s
  end.

Fixpoint topBarRun (es : list TopBarEvent) (s : TopBar.t)
  : TopBar.t * list TopBar.Output :=
  match es with
  | [] => (s, [])
  | e :: es' =>
      let (s1, o1) := topBarStep e s in
      let (s2, o2) := topBarRun es' s1 in
      (s2, o1 ++ o2)
  end.

(** The requests among the outputs of the top bar. *)
Definition requestsFired (os : list TopBar.Output) : list SearchRequest :=
  flat_map
    (fun o => match o with TopBar.FireSearchRequest r => [r] | _ => [] end)
    os.

(** What is done to the bottom bar: its two setters and the clicks. *)
Inductive BarOp :=
| SetTotal (n : Z)
| SetCurrent (c : Z)
| Click (c : BottomBar.Step).

Definition barStep (o : BarOp) (b : BottomBar.t)
  : BottomBar.t * list BottomBar.Index :=
  match o with
  | SetTotal n => BottomBar.setTotal n b
  | SetCurrent c => BottomBar.setCurrent c b
  | Click c => BottomBar.click c b
  end.

Fixpoint barRun (os : list BarOp) (b : BottomBar.t)
  : BottomBar.t * list BottomBar.Index :=
  match os with
  | [] => (b, [])
  | o :: os' =>
      let (b1, o1) := barStep o b in
      let (b2, o2) := barRun os' b1 in
      (b2, o1 ++ o2)
  end.

(** The bar shows what its total and its position say. *)
Definition displaysPosition (b : BottomBar.t) : Prop :=
  let total := BottomBar.barTotal b in
  let current := BottomBar.barCurrent b in
  BottomBar.nextTransparent b = ((current <=? 0) || (total <=? current)) /\
  BottomBar.previousTransparent b = (current <=? 1) /\
  BottomBar.showListTransparent b =
    (((current <=? 0) || (total <=? current)) && (current <=? 1)) /\
  BottomBar.counter b =
    (if total <? 0 then BottomBar.NoText
     else if total =? 0 then BottomBar.NoneFound
     else BottomBar.NOfAmount current total).

(** The two predicates of [PeerData] that [HasChooseFrom] asks. *)
Record PeerData := mkPeerData { isChat : bool; isMegagroup : bool }.

Definition HasChooseFrom (historyPeer : option PeerData) : bool :=
  match historyPeer with
  | Some p => isChat p || isMegagroup p
  | None => false
  end.

(** Which of the two optional buttons of the bottom bar are shown. *)
Record Buttons := mkButtons {
  jumpToDateShown : bool;
  chooseFromUserShown : bool
}.

(** The handlers that [buttonCalendarToggleOn] and [buttonFromToggleOn]
    subscribe, run on a value of [_topBar->fromValue()]. *)
Definition fromValueArrived (historyPeer : option PeerData) (p : PeerPtr)
  : Buttons :=
  let noFrom := match p with None => true | Some _ => false end in
  mkButtons noFrom (HasChooseFrom historyPeer && noFrom).

(** [fromValue()] produces the sender at the subscription and then every
    changed sender ([rpl::variable] fires an assignment only when the value
    differs). *)
Definition buttonsInit (historyPeer : option PeerData) : Buttons :=
  fromValueArrived historyPeer (TopBar.fromPeer TopBar.init).

Definition buttonsStep (historyPeer : option PeerData) (e : TopBarEvent)
  (s : TopBar.t * Buttons) : TopBar.t * Buttons :=
  let s1 := fst (topBarStep e (fst s)) in
  (s1,
   if PeerPtr_eqb (TopBar.fromPeer (fst s)) (TopBar.fromPeer s1) then snd s
   else fromValueArrived historyPeer (TopBar.fromPeer s1)).

Fixpoint buttonsRun (historyPeer : option PeerData) (es : list TopBarEvent)
  (s : TopBar.t * Buttons) : TopBar.t * Buttons :=
  match es with
  | [] => s
  | e :: es' => buttonsRun historyPeer es' (buttonsStep historyPeer e s)
  end.

(** The events of the orchestrator that come from the bottom bar and the
    list. *)
Definition navigates (e : Inner.Event) : Prop :=
  match e with
  | Inner.ClickNext | Inner.ClickPrevious | Inner.ClickShowList
  | Inner.RowClicked _ | Inner.LoadMoreRows => True
  | _ => False
  end.

(** Everything found is loaded. *)
Definition allLoaded (a : ApiSearch.t) : Prop :=
  Int.of_size (List.length (loaded a)) = combinedTotal a.

(** A handler that, with everything loaded, asks for no further page and
    leaves the merger alone. *)
Definition fetchesNothing (h : Inner.Handler) : Prop :=
  forall s, allLoaded (Inner.apiSearch s) ->
            fetchMoreCalls (snd (h s)) = [] /\
            Inner.apiSearch (fst (h s)) = Inner.apiSearch s.

(** A merger without a migrated source: it does not wait for a total and
    holds no migrated page. *)
Definition unmigrated (s : ApiSearch.t) : Prop :=
  ApiSearch.migratedSearch s = false /\
  ApiSearch.waitingForTotal s = false /\
  ApiSearch.migratedFirstFound s = emptyFound.

(** A handler that leaves a part of the orchestrator as it was. *)
Definition keeps {A : Type} (part : Inner.t -> A) (h : Inner.Handler) : Prop :=
  forall s, part (fst (h s)) = part s.



(** * Proofs *)

(** ** Arithmetic of [int] *)

Lemma wrap_in_range (z : Z) : Int.in_range z -> Int.wrap z = z.
Proof.
  unfold Int.in_range, Int.min_value, Int.max_value, Int.wrap. intros H.
  rewrite Z.mod_small; lia.
Qed.

Lemma wrap_le_of_nonneg (z : Z) : 0 <= z -> Int.wrap z <= z.
Proof.
  unfold Int.wrap. intros H.
  pose proof (Z.mod_le (z + 2147483648) 4294967296). lia.
Qed.

Lemma of_size_small (n : nat) :
  Z.of_nat n <= Int.max_value -> Int.of_size n = Z.of_nat n.
Proof.
  intros H. apply wrap_in_range.
  unfold Int.in_range, Int.min_value, Int.max_value in *. lia.
Qed.

(** ** The accumulator only ever gets messages appended *)

Lemma push_back_all (l acc : MessageIdsList) :
  fold_left ApiSearch.push_back l acc = acc ++ l.
Proof.
  revert acc. induction l as [|m l IH]; intros acc; simpl.
  - now rewrite app_nil_r.
  - rewrite IH. unfold ApiSearch.push_back. now rewrite <- app_assoc.
Qed.

Lemma addFound_eq (data : FoundMessages) (s : ApiSearch.t) :
  ApiSearch.addFound data s =
  ApiSearch.setConcatedFound
    (setMessagesOf (loaded s ++ messages data) (ApiSearch.concatedFound s)) s.
Proof. unfold ApiSearch.addFound, loaded. now rewrite push_back_all. Qed.

(** ** Facts about runs of the merger *)

Ltac break_if :=
  match goal with
  | |- context [if ?c then _ else _] => destruct c eqn:?
  end.

Ltac bool_facts :=
  repeat match goal with
  | H : _ && _ = true |- _ => apply andb_true_iff in H; destruct H
  | H : _ && _ = false |- _ => apply andb_false_iff in H; destruct H
  | H : _ || _ = true |- _ => apply orb_true_iff in H; destruct H
  | H : _ || _ = false |- _ => apply orb_false_iff in H; destruct H
  | H : negb _ = true |- _ => apply negb_true_iff in H
  | H : negb _ = false |- _ => apply negb_false_iff in H
  | H : (_ <=? _) = true |- _ => apply Z.leb_le in H
  | H : (_ <=? _) = false |- _ => apply Z.leb_gt in H
  | H : (_ <? _) = true |- _ => apply Z.ltb_lt in H
  | H : (_ <? _) = false |- _ => apply Z.ltb_ge in H
  | H : (_ =? _) = true |- _ => apply Z.eqb_eq in H
  | H : (_ =? _) = false |- _ => apply Z.eqb_neq in H
  end.

Ltac api_simpl :=
  repeat (
    cbv beta iota zeta delta
      [ApiSearch.run ApiSearch.step ApiSearch.primaryFound ApiSearch.migratedFound
       ApiSearch.checkFull ApiSearch.checkWaitingForTotal ApiSearch.clear
       ApiSearch.search ApiSearch.searchMore
       ApiSearch.setConcatedFound ApiSearch.setMigratedFirstFound
       ApiSearch.setWaitingForTotal ApiSearch.setIsFull
       ApiSearch.migratedSearch ApiSearch.migratedFirstFound
       ApiSearch.concatedFound ApiSearch.waitingForTotal ApiSearch.isFull
       setMessagesOf setTotalOf total messages nextToken emptyFound
       loaded combinedTotal fst snd];
    rewrite ?addFound_eq).

Lemma run_app (es1 es2 : list ApiSearch.Event) (s : ApiSearch.t) :
  ApiSearch.run (es1 ++ es2) s =
  (fst (ApiSearch.run es2 (fst (ApiSearch.run es1 s))),
   snd (ApiSearch.run es1 s)
   ++ snd (ApiSearch.run es2 (fst (ApiSearch.run es1 s)))).
Proof.
  revert s. induction es1 as [|e es1 IH]; intros s; simpl.
  - now destruct (ApiSearch.run es2 s).
  - destruct (ApiSearch.step e s) as [s1 o1]. rewrite IH.
    destruct (ApiSearch.run es1 s1) as [s2 o2]; simpl.
    now rewrite app_assoc.
Qed.

Lemma step_settled mig e s :
  settled mig s -> settled mig (fst (ApiSearch.step e s)).
Proof.
  unfold settled. destruct s as [m h c w f]. intros [Hm Hw]. cbn in Hm, Hw.
  destruct e as [|r| |data|data];
    unfold ApiSearch.step, ApiSearch.search, ApiSearch.searchMore,
      ApiSearch.primaryFound, ApiSearch.migratedFound,
      ApiSearch.checkWaitingForTotal, ApiSearch.checkFull; cbn;
    repeat (break_if; cbn); split; auto; intros E; subst;
    try discriminate; auto; try (specialize (Hw eq_refl); congruence).
Qed.

Lemma run_settled mig es s :
  settled mig s -> settled mig (fst (ApiSearch.run es s)).
Proof.
  revert s. induction es as [|e es IH]; intros s H; simpl; [exact H|].
  pose proof (step_settled mig e s H) as H1.
  destruct (ApiSearch.step e s) as [s1 o1]. simpl in H1.
  specialize (IH s1 H1). now destruct (ApiSearch.run es s1).
Qed.

Lemma init_settled mig : settled mig (ApiSearch.init mig).
Proof. split; reflexivity. Qed.

Lemma fresh_search_state mig r s :
  settled mig s ->
  fst (ApiSearch.run [ApiSearch.Clear; ApiSearch.Search r] s) =
  ApiSearch.mk mig emptyFound emptyFound mig (ApiSearch.isFull s).
Proof.
  destruct s as [m h c w f]. unfold settled. cbn. intros [Hm Hw]. subst m.
  unfold ApiSearch.search, ApiSearch.clear. cbn.
  destruct mig; cbn; [reflexivity|]. now rewrite Hw.
Qed.

Lemma add_in_range a b :
  0 <= a -> 0 <= b -> a + b <= Int.max_value -> Int.add a b = a + b.
Proof.
  intros Ha Hb Hs. apply wrap_in_range.
  unfold Int.in_range, Int.min_value, Int.max_value in *. lia.
Qed.

(** C1.  After any past, a new search is issued.  With a migrated source,
    the first page of the primary source (total [Tp >= 0]) and the first
    page of the migrated source (total [Tm >= 0]) arrive in either order:
    the combined total is then [Tp + Tm] and the new-results signal has
    fired (once, at the second arrival).  Without a migrated source the
    combined total is [Tp] and the signal fires at the arrival of the
    primary page.  The totals are [int]s, so their sum is taken to fit
    one; a first page carries the token of its search, which is not the
    empty token of the cleared accumulator. *)
Theorem combined_total_is_sum
  (mig : bool) (past : list ApiSearch.Event) (r : SearchRequest)
  (p m : FoundMessages) :
  nextToken p <> EmptyString ->
  let s0 :=
    fst (ApiSearch.run (past ++ [ApiSearch.Clear; ApiSearch.Search r])
           (ApiSearch.init mig)) in
  (mig = true ->
   nextToken m <> EmptyString ->
   0 <= total p -> 0 <= total m -> total p + total m <= Int.max_value ->
   let pm :=
     ApiSearch.run [ApiSearch.PrimaryPage p; ApiSearch.MigratedPage m] s0 in
   let mp :=
     ApiSearch.run [ApiSearch.MigratedPage m; ApiSearch.PrimaryPage p] s0 in
   combinedTotal (fst pm) = total p + total m /\
   snd pm = [ApiSearch.FireNewFounds] /\
   combinedTotal (fst mp) = total p + total m /\
   snd mp = [ApiSearch.FireNewFounds])
  /\
  (mig = false ->
   let only := ApiSearch.step (ApiSearch.PrimaryPage p) s0 in
   combinedTotal (fst only) = total p /\
   snd only = [ApiSearch.FireNewFounds]).
Proof.
  intros Hp s0.
  assert (Hs0 : exists f, s0 = ApiSearch.mk mig emptyFound emptyFound mig f).
  { unfold s0. rewrite run_app. cbn [fst].
    rewrite (fresh_search_state mig r).
    - eexists; reflexivity.
    - apply run_settled, init_settled. }
  destruct Hs0 as [f ->].
  apply String.eqb_neq in Hp.
  destruct p as [tp mp tokp], m as [tm mm tokm]. cbn in *.
  split.
  - intros -> Hm H0p H0m Hsum. apply String.eqb_neq in Hm.
    destruct f; api_simpl; rewrite ?Hp, ?Hm;
    repeat (break_if; api_simpl; rewrite ?Hp, ?Hm);
      bool_facts; try lia; try congruence;
      repeat split; try reflexivity; apply add_in_range; assumption.
  - intros ->. api_simpl. rewrite Hp.
    repeat (break_if; api_simpl); try discriminate; auto.
Qed.

(** ** Growth of the loaded sequence *)

Lemma extends_refl l : extends l l.
Proof. exists []. now rewrite app_nil_r. Qed.

Lemma extends_app l a : extends l (l ++ a).
Proof. now exists a. Qed.

Lemma extends_app2 l a b : extends l ((l ++ a) ++ b).
Proof. exists (a ++ b). now rewrite app_assoc. Qed.

Lemma extends_trans l1 l2 l3 : extends l1 l2 -> extends l2 l3 -> extends l1 l3.
Proof.
  intros [a ->] [b ->]. exists (a ++ b). now rewrite app_assoc.
Qed.

Lemma step_extends tok e s :
  continues tok e ->
  nextToken (ApiSearch.concatedFound s) = tok ->
  extends (loaded s) (loaded (fst (ApiSearch.step e s))) /\
  nextToken (ApiSearch.concatedFound (fst (ApiSearch.step e s))) = tok.
Proof.
  destruct s as [mg [th mh kh] [tc mc kc] w f].
  destruct e as [|r| |[td md kd]|[td md kd]]; cbn [continues];
    try contradiction; cbn; intros -> <-.
  - api_simpl. rewrite String.eqb_refl.
    repeat (break_if; api_simpl);
      auto using extends_refl, extends_app, extends_app2.
  - destruct mg, f; api_simpl;
      repeat (break_if; api_simpl);
      auto using extends_refl, extends_app, extends_app2.
Qed.

(** C7.  Over any sequence of arrivals of pages that carry the
    accumulator's current token, the loaded sequence only grows at its
    end: its length does not decrease and every entry keeps its place. *)
Theorem next_pages_only_append (es : list ApiSearch.Event) (s : ApiSearch.t) :
  Forall (continues (nextToken (ApiSearch.concatedFound s))) es ->
  let s' := fst (ApiSearch.run es s) in
  (List.length (loaded s) <= List.length (loaded s'))%nat /\
  (forall k id, nth_error (loaded s) k = Some id ->
                nth_error (loaded s') k = Some id).
Proof.
  intros H. cbv zeta.
  assert (E : extends (loaded s) (loaded (fst (ApiSearch.run es s)))).
  { revert s H. induction es as [|e es IH]; intros s H.
    - apply extends_refl.
    - inversion H as [|? ? He Hes]; subst.
      destruct (step_extends _ e s He eq_refl) as [Hx Ht].
      cbn [ApiSearch.run].
      destruct (ApiSearch.step e s) as [s1 o1]. cbn [fst] in Hx, Ht.
      rewrite <- Ht in Hes. specialize (IH s1 Hes).
      destruct (ApiSearch.run es s1) as [s2 o2]. cbn [fst] in *.
      eapply extends_trans; eauto. }
  destruct E as [suffix ->]. split.
  - rewrite length_app. lia.
  - intros k id Hk. rewrite nth_error_app1; [exact Hk|].
    apply nth_error_Some. congruence.
Qed.

(** ** The pager *)

Ltac bar_simpl :=
  cbv beta iota zeta delta
    [BottomBar.click BottomBar.clickNext BottomBar.clickPrevious
     BottomBar.stepBy BottomBar.assign BottomBar.force_assign
     BottomBar.setCurrent BottomBar.setTotal BottomBar.currentValue
     BottomBar.updateText BottomBar.barTotal BottomBar.barCurrent
     BottomBar.nextTransparent BottomBar.previousTransparent
     BottomBar.showListTransparent BottomBar.counter fst snd consistent].

Lemma setTotal_consistent n b0 : consistent n (fst (BottomBar.setTotal n b0)).
Proof. destruct b0. bar_simpl. repeat split; lia. Qed.

Lemma click_consistent n c b :
  n <= Int.max_value ->
  consistent n b -> consistent n (fst (BottomBar.click c b)).
Proof.
  intros Hn. destruct b as [t cur nx pv sl ct].
  unfold consistent at 1. cbn. intros (-> & Hc & -> & ->).
  assert (Hup : Int.add cur 1 = cur + 1 \/ n <= cur).
  { destruct (Z.le_gt_cases n cur); [now right|left].
    apply wrap_in_range.
    unfold Int.in_range, Int.min_value, Int.max_value in *. lia. }
  assert (Hdown : Int.add cur (-1) = cur - 1).
  { apply wrap_in_range.
    unfold Int.in_range, Int.min_value, Int.max_value in *. lia. }
  destruct c; bar_simpl.
  - destruct (cur <=? 0) eqn:E0, (n <=? cur) eqn:E1; cbn [orb];
      bar_simpl; bool_facts; try (repeat split; reflexivity || lia).
    destruct Hup as [-> | ?]; [|lia].
    break_if; bar_simpl; bool_facts; lia.
  - destruct (cur <=? 1) eqn:E0; bar_simpl; bool_facts;
      try (repeat split; reflexivity || lia).
    rewrite Hdown.
    break_if; bar_simpl; bool_facts; lia.
Qed.

Lemma clicks_consistent n cs b :
  n <= Int.max_value ->
  consistent n b -> consistent n (fst (BottomBar.clicks cs b)).
Proof.
  intros Hn. revert b. induction cs as [|c cs IH]; intros b H; [exact H|].
  cbn [BottomBar.clicks].
  pose proof (click_consistent n c b Hn H) as H1.
  destruct (BottomBar.click c b) as [b1 o1]. cbn [fst] in H1.
  specialize (IH b1 H1). now destruct (BottomBar.clicks cs b1).
Qed.

(** C4, as the code has it.  [setTotal n] selects position 1 whatever [n]
    is.  After [setTotal n] with [n >= 1] and any sequence of steps,
    [1 <= current <= total]; with [n = 0] the position stays 1, above the
    total, and neither step moves it.  A step forward changes nothing when
    [current >= total], a step backward nothing when [current <= 1]. *)
Theorem navigator_bounds
  (b0 : BottomBar.t) (n : Z) (cs : list BottomBar.Step) :
  0 <= n <= Int.max_value ->
  BottomBar.barCurrent (fst (BottomBar.setTotal n b0)) = 1 /\
  let b := fst (BottomBar.clicks cs (fst (BottomBar.setTotal n b0))) in
  BottomBar.barTotal b = n /\
  (1 <= n -> 1 <= BottomBar.barCurrent b <= BottomBar.barTotal b) /\
  (n = 0 -> BottomBar.barCurrent b = 1) /\
  (BottomBar.barTotal b <= BottomBar.barCurrent b ->
   BottomBar.clickNext b = (b, [])) /\
  (BottomBar.barCurrent b <= 1 -> BottomBar.clickPrevious b = (b, [])).
Proof.
  intros [H0 Hmax]. split; [now destruct b0|]. cbv zeta.
  pose proof (clicks_consistent n cs _ Hmax (setTotal_consistent n b0)) as H.
  destruct (fst (BottomBar.clicks cs (fst (BottomBar.setTotal n b0))))
    as [t cur nx pv sl ct].
  unfold consistent in H. cbn in H. destruct H as (-> & Hc & -> & ->).
  cbn [BottomBar.barTotal BottomBar.barCurrent].
  repeat split; try lia.
  - intros Hfull. unfold BottomBar.clickNext. cbn.
    destruct (cur <=? 0) eqn:E0, (n <=? cur) eqn:E1; cbn; bool_facts;
      try reflexivity; lia.
  - intros Hfirst. unfold BottomBar.clickPrevious. cbn.
    destruct (cur <=? 1) eqn:E0; bool_facts; try reflexivity; lia.
Qed.

Lemma navigator_bounds_witness :
  let b :=
    fst (BottomBar.clicks [BottomBar.Forward; BottomBar.Forward;
                           BottomBar.Backward]
           (fst (BottomBar.setTotal 3 BottomBar.init))) in
  BottomBar.barTotal b = 3 /\
  (1 <= 3 -> 1 <= BottomBar.barCurrent b <= BottomBar.barTotal b).
Proof.
  pose proof (navigator_bounds BottomBar.init 3
                [BottomBar.Forward; BottomBar.Forward; BottomBar.Backward])
    as H.
  assert (R : 0 <= 3 <= Int.max_value) by (unfold Int.max_value; lia).
  destruct (H R) as (_ & Ht & Hb & _). split; [exact Ht|exact Hb].
Defined.

(** C4 as stated fails at [setTotal 0]: the position selected is 1, not 0,
    and it is above the total. *)
Lemma navigator_zero_total_selects_one :
  let b := fst (BottomBar.setTotal 0 BottomBar.init) in
  BottomBar.barCurrent b = 1 /\
  ~ (0 <= BottomBar.barCurrent b <= BottomBar.barTotal b).
Proof. cbn. split; [reflexivity|lia]. Qed.

(** ** The cache of typed requests *)

Lemma PeerPtr_eqb_eq (a b : PeerPtr) : PeerPtr_eqb a b = true <-> a = b.
Proof.
  destruct a as [x|], b as [y|]; cbn; try (split; congruence).
  rewrite Z.eqb_eq. split; congruence.
Qed.

Lemma typedBefore_In q f ts :
  TopBar.typedBefore q f ts = true <-> In (mkSearchRequest q f) ts.
Proof.
  induction ts as [|[q' f'] ts IH]; cbn; [split; [discriminate|tauto]|].
  destruct (String.eqb q' q && PeerPtr_eqb f' f) eqn:E.
  - apply andb_true_iff in E. destruct E as [Eq Ef].
    apply String.eqb_eq in Eq. apply PeerPtr_eqb_eq in Ef. subst.
    split; auto.
  - rewrite IH. split; [tauto|]. intros [H|H]; [|exact H].
    inversion H; subst. rewrite String.eqb_refl in E.
    assert (PeerPtr_eqb f f = true) by now apply PeerPtr_eqb_eq.
    cbn in E. congruence.
Qed.

(** C8.  The user changes the text to [q].  If the pair of [q] and the
    current sender was submitted before, the request is emitted within the
    same call, the timer is left as it was and the cache gets no entry.
    If it was not, nothing is emitted and the timer is armed; the request
    is emitted, and cached, when the timer fires or the user submits. *)
Theorem cached_pair_fires_at_once (s : TopBar.t) (q : string) :
  let typed := TopBar.setSelectQuery q s in
  let request := mkSearchRequest q (TopBar.fromPeer s) in
  let armed := TopBar.setSearchTimerActive true typed in
  (In request (TopBar.typedRequests s) ->
   TopBar.queryChanged q s =
   (typed, [TopBar.FireSearchRequest request; TopBar.FireQueryChanges]))
  /\
  (~ In request (TopBar.typedRequests s) ->
   TopBar.queryChanged q s = (armed, [TopBar.FireQueryChanges]) /\
   TopBar.searchTimerFired armed =
   (TopBar.setTypedRequests (TopBar.typedRequests s ++ [request])
      (TopBar.setSearchTimerActive false typed),
    [TopBar.FireSearchRequest request]) /\
   TopBar.submitted armed =
   (TopBar.setTypedRequests (TopBar.typedRequests s ++ [request]) armed,
    [TopBar.FireSearchRequest request])).
Proof.
  destruct s as [q0 items f timer typed]. cbv zeta. split.
  - intros H. apply typedBefore_In in H.
    unfold TopBar.queryChanged, TopBar.requestSearchDelayed. cbn in *.
    now rewrite H.
  - intros H.
    assert (E : TopBar.typedBefore q f typed = false).
    { destruct (TopBar.typedBefore q f typed) eqn:E; [|reflexivity].
      apply typedBefore_In in E. contradiction. }
    unfold TopBar.queryChanged, TopBar.requestSearchDelayed. cbn.
    rewrite E. repeat split.
Qed.

Lemma cached_pair_fires_at_once_witness :
  let s := TopBar.mk "ali" [] None false [mkSearchRequest "alice" None] in
  TopBar.queryChanged "alice" s =
  (TopBar.setSelectQuery "alice" s,
   [TopBar.FireSearchRequest (mkSearchRequest "alice" None);
    TopBar.FireQueryChanges])
  /\
  TopBar.queryChanged "bob" s =
  (TopBar.setSearchTimerActive true (TopBar.setSelectQuery "bob" s),
   [TopBar.FireQueryChanges]).
Proof.
  cbv zeta. split.
  - apply (proj1 (cached_pair_fires_at_once
                    (TopBar.mk "ali" [] None false
                       [mkSearchRequest "alice" None]) "alice")).
    cbn. left. reflexivity.
  - apply (proj2 (cached_pair_fires_at_once
                    (TopBar.mk "ali" [] None false
                       [mkSearchRequest "alice" None]) "bob")).
    cbn. intros [H|[]]. discriminate H.
Defined.

(** ** The orchestrator *)

Ltac inner_simpl :=
  cbv beta iota zeta delta
    [Inner.showItem Inner.withApiData Inner.andThen Inner.skip Inner.emit
     Inner.update Inner.apiSearchMore Inner.hideList Inner.goToMessage
     Inner.setTopBar Inner.setBottomBar Inner.setListRows Inner.setApiSearch
     Inner.setPendingJump Inner.topBar Inner.bottomBar Inner.listRows
     Inner.apiSearch Inner.pendingJump Inner.adapterCall
     ApiSearch.searchMore ApiSearch.migratedSearch ApiSearch.isFull
     ApiSearch.concatedFound messages total nextToken
     activeSource loaded fst snd flat_map app].

Lemma showItem_eq own (i : Z) (s : Inner.t) :
  let d := ApiSearch.concatedFound (Inner.apiSearch s) in
  let size := Int.of_size (List.length (messages d)) in
  Inner.showItem own i s =
  (Inner.setPendingJump
     (if (size <=? i) || (i <? 0)
      then Inner.mkPendingJump (nextToken d) i
      else Inner.noPendingJump) s,
   (if (Int.sub size 1 <=? i) && negb (size =? total d)
    then [Inner.RemoteSearchMore (activeSource (Inner.apiSearch s))]
    else []) ++
   (if (size <=? i) || (i <? 0) then []
    else (if own (nth (Z.to_nat i) (messages d) nullMsgId)
          then [Inner.JumpToChatListEntry
                  (nth (Z.to_nat i) (messages d) nullMsgId)]
          else []) ++ [Inner.HideList])).
Proof.
  destruct s as [tb bb rows [mg held [tc mc kc] w f] pj].
  destruct mg, f; inner_simpl;
    repeat (break_if; inner_simpl; cbn [andb]); reflexivity.
Qed.

Lemma andThen_fst (h1 h2 : Inner.Handler) s :
  fst (Inner.andThen h1 h2 s) = fst (h2 (fst (h1 s))).
Proof.
  unfold Inner.andThen. destruct (h1 s) as [s1 o1]. cbn.
  now destruct (h2 s1).
Qed.

Lemma andThen_snd (h1 h2 : Inner.Handler) s :
  snd (Inner.andThen h1 h2 s) = snd (h1 s) ++ snd (h2 (fst (h1 s))).
Proof.
  unfold Inner.andThen. destruct (h1 s) as [s1 o1]. cbn.
  now destruct (h2 s1).
Qed.



Lemma keepsMerger_andThen h1 h2 :
  keepsMerger h1 -> keepsMerger h2 -> keepsMerger (Inner.andThen h1 h2).
Proof. intros H1 H2 s. rewrite andThen_fst, H2, H1. reflexivity. Qed.


Lemma keepsMerger_forEach {A} (h : A -> Inner.Handler) l :
  (forall a, keepsMerger (h a)) -> keepsMerger (Inner.forEach h l).
Proof.
  intros H. induction l as [|a l IH]; cbn [Inner.forEach].
  - intros s. reflexivity.
  - apply keepsMerger_andThen; auto.
Qed.


Lemma showItem_keepsMerger own i : keepsMerger (Inner.showItem own i).
Proof. intros s. rewrite showItem_eq. now destruct s. Qed.



Lemma shown_keepsMerger own i :
  keepsMerger (Inner.andThen (Inner.emit (Inner.ShowItemRequested i))
                             (Inner.showItem own i)).
Proof.
  apply keepsMerger_andThen; [intros s; reflexivity|apply showItem_keepsMerger].
Qed.


Lemma onBottomBar_keepsMerger own op : keepsMerger (Inner.onBottomBar own op).
Proof.
  intros s. unfold Inner.onBottomBar.
  destruct (op (Inner.bottomBar s)) as [b produced].
  rewrite keepsMerger_forEach; [now destruct s|].
  intros i. apply shown_keepsMerger.
Qed.



Lemma findIndex_lt id l pos :
  Inner.findIndex id l = Some pos -> (pos < List.length l)%nat.
Proof.
  revert pos. induction l as [|m l IH]; intros pos; cbn; [discriminate|].
  destruct (FullMsgId_eqb m id).
  - intros [= <-]. lia.
  - destruct (Inner.findIndex id l) as [p|]; cbn; [|discriminate].
    intros [= <-]. specialize (IH p eq_refl). lia.
Qed.



Lemma listShowItem_keepsMerger own id : keepsMerger (Inner.listShowItem own id).
Proof.
  intros s. unfold Inner.listShowItem, Inner.withApiData.
  destruct (Inner.findIndex _ _); [apply onBottomBar_keepsMerger|reflexivity].
Qed.



Lemma addItems_keepsMerger own ids c : keepsMerger (Inner.addItems own ids c).
Proof.
  unfold Inner.addItems. repeat apply keepsMerger_andThen.
  - destruct c; intros s; now destruct s.
  - intros s; now destruct s.
  - intros s. destruct (Inner.listRows s);
      [apply listShowItem_keepsMerger|reflexivity].
Qed.











(** C9.  A request with an empty query and no sender changes nothing and
    causes nothing: the handler returns before it touches the merger.  So
    does submitting the empty field without a sender, from the merger's
    side. *)
Theorem empty_request_suppressed own (s : Inner.t) (r : SearchRequest) :
  query r = EmptyString -> from r = None ->
  Inner.searchRequested own r s = (s, []) /\
  (TopBar.selectQuery (Inner.topBar s) = query r ->
   TopBar.fromPeer (Inner.topBar s) = from r ->
   Inner.apiSearch (fst (Inner.step own Inner.Submitted s)) = Inner.apiSearch s /\
   snd (Inner.step own Inner.Submitted s) = []).
Proof.
  destruct r as [q f]. cbn. intros -> ->. split; [reflexivity|].
  destruct s as [[q0 items f0 tm typed] bb rows api pj]. cbn.
  intros -> ->. split; reflexivity.
Qed.

(** C10.  A request with an empty query and a sender is a search: the
    accumulator and the held migrated page are cleared and the adapters
    are called.  A request is suppressed exactly when its query is empty
    and it has no sender. *)
Theorem sender_only_request_searches own (s : Inner.t) (r : SearchRequest) :
  (forall p,
     query r = EmptyString -> from r = Some p ->
     let s' := fst (Inner.searchRequested own r s) in
     ApiSearch.concatedFound (Inner.apiSearch s') = emptyFound /\
     ApiSearch.migratedFirstFound (Inner.apiSearch s') = emptyFound /\
     snd (Inner.searchRequested own r s) =
     if ApiSearch.migratedSearch (Inner.apiSearch s)
     then [Inner.RemoteSearch ApiSearch.Migrated EmptyString (Some p);
           Inner.RemoteSearch ApiSearch.Primary EmptyString (Some p)]
     else [Inner.RemoteSearch ApiSearch.Primary EmptyString (Some p)])
  /\
  (snd (Inner.searchRequested own r s) = [] <->
   query r = EmptyString /\ from r = None).
Proof.
  destruct r as [q f].
  destruct s as [tb bb rows [mg held cf w fl] pj]. cbn. split.
  - intros p -> ->. destruct mg; repeat split; reflexivity.
  - unfold Inner.searchRequested. cbn.
    destruct (String.eqb_spec q EmptyString), f as [p|], mg; cbn;
      split; try discriminate; try tauto;
      intros [? ?]; congruence.
Qed.

(** The gate that the merger has for the order of the two sources: while
    fullness is not marked, a migrated page is not appended. *)
Lemma migrated_page_held_while_not_full data (s : ApiSearch.t) :
  ApiSearch.isFull s = false ->
  loaded (fst (ApiSearch.migratedFound data s)) = loaded s.
Proof.
  destruct s as [mg [th mh kh] [tc mc kc] w f]. cbn. intros ->.
  unfold ApiSearch.migratedFound. destruct mg; api_simpl; [|reflexivity].
  repeat (break_if; api_simpl); reflexivity.
Qed.

(** No member function sets [_isFull] back to [false]. *)
Lemma fullness_is_never_unmarked e (s : ApiSearch.t) :
  ApiSearch.isFull s = true ->
  ApiSearch.isFull (fst (ApiSearch.step e s)) = true.
Proof.
  destruct s as [mg [th mh kh] [tc mc kc] w f]. cbn. intros ->.
  destruct e as [|r| |d|d]; api_simpl;
    repeat (break_if; api_simpl); reflexivity.
Qed.

(** C2 on the code: in the search that follows a search whose primary
    results were exhausted, the flag is still set, and the migrated page
    is appended while three of ten primary results are loaded. *)
Theorem migrated_page_appended_before_primary_is_exhausted :
  let s := fst (ApiSearch.run (firstSearch ++ secondSearch)
                  (ApiSearch.init true)) in
  loaded s = [msgP 2; msgP 3; msgP 4; msgM 9] /\
  ApiSearch.isFull
    (fst (ApiSearch.run (firstSearch ++ [ApiSearch.Clear;
                                         ApiSearch.Search (request "b")])
            (ApiSearch.init true))) = true.
Proof. vm_compute. split; reflexivity. Qed.

(** C3 on the code: a new search request clears the accumulator and the
    held page, but leaves fullness as it was; after a search that marked
    it, it stays marked. *)
Theorem new_search_leaves_fullness_marked own :
  (forall s r,
     ApiSearch.isFull (Inner.apiSearch (fst (Inner.searchRequested own r s)))
     = ApiSearch.isFull (Inner.apiSearch s)) /\
  let marked :=
    Inner.setApiSearch
      (fst (ApiSearch.run firstSearch (ApiSearch.init true)))
      (Inner.init true) in
  ApiSearch.isFull (Inner.apiSearch marked) = true /\
  ApiSearch.isFull
    (Inner.apiSearch (fst (Inner.searchRequested own (request "b") marked)))
  = true.
Proof.
  split.
  - intros [tb bb rows [mg held cf w fl] pj] [q f].
    unfold Inner.searchRequested. cbn.
    destruct (String.eqb q EmptyString && _); [reflexivity|].
    destruct mg; reflexivity.
  - cbv zeta. split; reflexivity.
Qed.

Lemma combined_total_is_sum_witness :
  let s0 :=
    fst (ApiSearch.run ([] ++ [ApiSearch.Clear;
                               ApiSearch.Search (request "alice")])
           (ApiSearch.init true)) in
  combinedTotal
    (fst (ApiSearch.run [ApiSearch.PrimaryPage emptyPrimary;
                         ApiSearch.MigratedPage oneMigrated] s0)) = 0 + 1 /\
  combinedTotal
    (fst (ApiSearch.run [ApiSearch.MigratedPage oneMigrated;
                         ApiSearch.PrimaryPage emptyPrimary] s0)) = 0 + 1.
Proof.
  assert (Hp : nextToken emptyPrimary <> EmptyString) by discriminate.
  assert (Hm : nextToken oneMigrated <> EmptyString) by discriminate.
  destruct (combined_total_is_sum true [] (request "alice")
              emptyPrimary oneMigrated Hp) as [H _].
  assert (H0p : 0 <= total emptyPrimary) by (cbn; lia).
  assert (H0m : 0 <= total oneMigrated) by (cbn; lia).
  assert (Hs : total emptyPrimary + total oneMigrated <= Int.max_value)
    by (unfold Int.max_value; cbn; lia).
  destruct (H eq_refl Hm H0p H0m Hs) as (A & _ & B & _).
  split; [exact A|exact B].
Defined.

Lemma next_pages_only_append_witness :
  let s := Inner.apiSearch threeLoaded in
  (List.length (loaded s)
   <= List.length
        (loaded (fst (ApiSearch.run [ApiSearch.PrimaryPage nextThree] s))))%nat.
Proof.
  apply (next_pages_only_append [ApiSearch.PrimaryPage nextThree]
           (Inner.apiSearch threeLoaded)).
  constructor; [reflexivity|constructor].
Defined.



Lemma empty_request_suppressed_witness :
  Inner.searchRequested everyMessage (request EmptyString) threeLoaded
  = (threeLoaded, []).
Proof.
  apply (empty_request_suppressed everyMessage threeLoaded (request EmptyString));
    reflexivity.
Defined.

Lemma sender_only_request_searches_witness :
  snd (Inner.searchRequested everyMessage (mkSearchRequest EmptyString (Some 7))
         threeLoaded)
  = [Inner.RemoteSearch ApiSearch.Primary EmptyString (Some 7)].
Proof.
  apply (proj1 (sender_only_request_searches everyMessage threeLoaded
                  (mkSearchRequest EmptyString (Some 7))) 7); reflexivity.
Defined.

(** * Further properties of the merger *)

Lemma run_cons e es s :
  ApiSearch.run (e :: es) s =
  (fst (ApiSearch.run es (fst (ApiSearch.step e s))),
   snd (ApiSearch.step e s)
   ++ snd (ApiSearch.run es (fst (ApiSearch.step e s)))).
Proof.
  cbn [ApiSearch.run]. destruct (ApiSearch.step e s) as [s1 o1].
  cbn [fst snd]. now destruct (ApiSearch.run es s1).
Qed.

Lemma run_keeps_fullness es s :
  ApiSearch.isFull s = true -> ApiSearch.isFull (fst (ApiSearch.run es s)) = true.
Proof.
  revert s. induction es as [|e es IH]; intros s H; [exact H|].
  rewrite run_cons. cbn [fst]. apply IH, fullness_is_never_unmarked, H.
Qed.

Lemma step_only_primary (P : FullMsgId -> Prop) e s :
  Forall P (loaded s) ->
  (forall d, e = ApiSearch.PrimaryPage d -> Forall P (messages d)) ->
  ApiSearch.isFull (fst (ApiSearch.step e s)) = false ->
  Forall P (loaded (fst (ApiSearch.step e s))).
Proof.
  destruct s as [mg [th mh kh] [tc mc kc] w f].
  destruct e as [|r| |[td md kd]|[td md kd]]; cbn [loaded]; intros HP Hd;
    try specialize (Hd _ eq_refl); api_simpl.
  - intros _. constructor.
  - break_if; intros _; exact HP.
  - break_if; intros _; exact HP.
  - repeat (break_if; api_simpl); try discriminate; intros _;
      cbn [messages] in *; try apply Forall_app; auto.
  - destruct mg, f; api_simpl; repeat (break_if; api_simpl);
      try discriminate; intros _; exact HP.
Qed.

(** X1.  Whatever arrives and in whatever order: as long as fullness is
    not marked, the loaded sequence holds only messages that primary
    pages delivered. *)
Theorem only_primary_messages_until_full
  (P : FullMsgId -> Prop) (es : list ApiSearch.Event) (s : ApiSearch.t) :
  Forall P (loaded s) ->
  (forall d, In (ApiSearch.PrimaryPage d) es -> Forall P (messages d)) ->
  ApiSearch.isFull (fst (ApiSearch.run es s)) = false ->
  Forall P (loaded (fst (ApiSearch.run es s))).
Proof.
  revert s. induction es as [|e es IH]; intros s HP Hd Hf; [exact HP|].
  rewrite run_cons in *. cbn [fst] in *.
  apply IH; [|intros d Hin; apply Hd; now right|exact Hf].
  apply step_only_primary; [exact HP|intros d ->; apply Hd; now left|].
  destruct (ApiSearch.isFull (fst (ApiSearch.step e s))) eqn:F;
    [|reflexivity].
  rewrite run_keeps_fullness in Hf by exact F. discriminate.
Qed.

Lemma only_primary_messages_until_full_witness :
  Forall (fun id => peer id = 1)
    (loaded
       (fst (ApiSearch.run
               [ApiSearch.Clear; ApiSearch.Search (request "b");
                ApiSearch.MigratedPage oneMigrated;
                ApiSearch.PrimaryPage threeOfTen;
                ApiSearch.PrimaryPage nextThree]
               (ApiSearch.init true)))).
Proof.
  apply only_primary_messages_until_full.
  - constructor.
  - intros d [H|[H|[H|[H|[H|[]]]]]]; try discriminate H;
      injection H as <-; repeat constructor.
  - reflexivity.
Defined.

(** X2.  In a chat with a migrated predecessor, when the first primary
    page of a new search already holds all primary results, the loaded
    sequence is that page followed by the first migrated page, whichever
    of the two arrives first, and fullness is marked. *)
Theorem exhausted_first_page_merges_in_either_order
  (s : ApiSearch.t) (r : SearchRequest) (p m : FoundMessages) :
  ApiSearch.migratedSearch s = true ->
  nextToken p <> EmptyString ->
  nextToken m <> EmptyString ->
  total p = Int.of_size (List.length (messages p)) ->
  let s0 := fst (ApiSearch.run [ApiSearch.Clear; ApiSearch.Search r] s) in
  let pm :=
    fst (ApiSearch.run [ApiSearch.PrimaryPage p; ApiSearch.MigratedPage m] s0) in
  let mp :=
    fst (ApiSearch.run [ApiSearch.MigratedPage m; ApiSearch.PrimaryPage p] s0) in
  loaded pm = messages p ++ messages m /\
  loaded mp = messages p ++ messages m /\
  ApiSearch.isFull pm = true /\
  ApiSearch.isFull mp = true.
Proof.
  destruct s as [mg held cf w f]. cbn [ApiSearch.migratedSearch].
  intros -> Hp Hm Hfull. apply String.eqb_neq in Hp, Hm.
  apply Z.eqb_eq in Hfull.
  destruct p as [tp mp kp], m as [tm mm km]. cbn in Hp, Hm, Hfull.
  cbv zeta. cbn [messages].
  destruct f; api_simpl; rewrite ?Hp, ?Hm; api_simpl;
    rewrite ?Hfull; api_simpl; rewrite ?Hp, ?Hm; api_simpl;
    repeat (break_if; api_simpl); cbn [app]; rewrite ?app_nil_r;
    repeat split; try reflexivity; congruence.
Qed.

Lemma exhausted_first_page_merges_in_either_order_witness :
  let s0 :=
    fst (ApiSearch.run [ApiSearch.Clear; ApiSearch.Search (request "a")]
           (ApiSearch.init true)) in
  loaded
    (fst (ApiSearch.run [ApiSearch.PrimaryPage emptyPrimary;
                         ApiSearch.MigratedPage oneMigrated] s0))
  = messages emptyPrimary ++ messages oneMigrated /\
  loaded
    (fst (ApiSearch.run [ApiSearch.MigratedPage oneMigrated;
                         ApiSearch.PrimaryPage emptyPrimary] s0))
  = messages emptyPrimary ++ messages oneMigrated.
Proof.
  destruct (exhausted_first_page_merges_in_either_order
              (ApiSearch.init true) (request "a") emptyPrimary oneMigrated)
    as (A & B & _).
  - reflexivity.
  - discriminate.
  - discriminate.
  - reflexivity.
  - split; [exact A|exact B].
Defined.

Lemma step_keeps_known_total tok e s :
  continues tok e ->
  nextToken (ApiSearch.concatedFound s) = tok ->
  ApiSearch.waitingForTotal s = false ->
  combinedTotal (fst (ApiSearch.step e s)) = combinedTotal s /\
  ApiSearch.waitingForTotal (fst (ApiSearch.step e s)) = false.
Proof.
  destruct s as [mg [th mh kh] [tc mc kc] w f].
  destruct e as [|r| |[td md kd]|[td md kd]]; cbn [continues];
    try contradiction; cbn; intros -> <- ->.
  - api_simpl. rewrite String.eqb_refl.
    repeat (break_if; api_simpl); split; reflexivity.
  - destruct mg, f; api_simpl; repeat (break_if; api_simpl);
      split; reflexivity.
Qed.

(** X3.  Once the total is known (the merger does not wait for one), the
    pages that continue the accumulator never change it, whatever total
    they report themselves. *)
Theorem known_total_is_kept (es : list ApiSearch.Event) (s : ApiSearch.t) :
  ApiSearch.waitingForTotal s = false ->
  Forall (continues (nextToken (ApiSearch.concatedFound s))) es ->
  combinedTotal (fst (ApiSearch.run es s)) = combinedTotal s.
Proof.
  revert s. induction es as [|e es IH]; intros s Hw H; [reflexivity|].
  inversion H as [|? ? He Hes]; subst.
  rewrite run_cons. cbn [fst].
  destruct (step_keeps_known_total _ e s He eq_refl Hw) as [Ht Hw'].
  destruct (step_extends _ e s He eq_refl) as [_ Hk].
  rewrite <- Hk in Hes. rewrite (IH _ Hw' Hes). exact Ht.
Qed.

Lemma known_total_is_kept_witness :
  combinedTotal
    (fst (ApiSearch.run
            [ApiSearch.PrimaryPage (mkFoundMessages 7 [msgP 4] "q0")]
            (Inner.apiSearch threeLoaded)))
  = combinedTotal (Inner.apiSearch threeLoaded).
Proof.
  apply known_total_is_kept.
  - reflexivity.
  - constructor; [reflexivity|constructor].
Defined.

Lemma step_unmigrated e s :
  unmigrated s -> unmigrated (fst (ApiSearch.step e s)).
Proof.
  unfold unmigrated. destruct s as [mg held [tc mc kc] w f]. cbn.
  intros (-> & -> & ->).
  destruct e as [|r| |[td md kd]|[td md kd]]; api_simpl;
    repeat (break_if; api_simpl); repeat split; reflexivity.
Qed.

Lemma run_unmigrated es s :
  unmigrated s -> unmigrated (fst (ApiSearch.run es s)).
Proof.
  revert s. induction es as [|e es IH]; intros s H; [exact H|].
  rewrite run_cons. cbn [fst]. apply IH, step_unmigrated, H.
Qed.

(** X4.  In a chat without a migrated predecessor, after any past: a
    primary page fires exactly one signal, next-page when it carries the
    accumulator's token and new-results otherwise; in the first case its
    messages are appended and the total stays, in the second the page
    replaces the accumulator.  Nothing else is ever appended. *)
Theorem without_migrated_source_every_page_signals
  (past : list ApiSearch.Event) (data : FoundMessages) :
  let s := fst (ApiSearch.run past (ApiSearch.init false)) in
  let s' := fst (ApiSearch.primaryFound data s) in
  if String.eqb (nextToken data) (nextToken (ApiSearch.concatedFound s))
  then snd (ApiSearch.primaryFound data s) = [ApiSearch.FireNextFounds] /\
       loaded s' = loaded s ++ messages data /\
       combinedTotal s' = combinedTotal s
  else snd (ApiSearch.primaryFound data s) = [ApiSearch.FireNewFounds] /\
       loaded s' = messages data /\
       combinedTotal s' = total data.
Proof.
  cbv zeta.
  assert (H : unmigrated (fst (ApiSearch.run past (ApiSearch.init false))))
    by (apply run_unmigrated; repeat split).
  destruct (fst (ApiSearch.run past (ApiSearch.init false)))
    as [mg held [tc mc kc] w f].
  unfold unmigrated in H. cbn in H. destruct H as (-> & -> & ->).
  destruct data as [td md kd]. cbn [nextToken ApiSearch.concatedFound].
  destruct (String.eqb kd kc) eqn:E; api_simpl; rewrite E; api_simpl;
    repeat (break_if; api_simpl); try discriminate;
    cbn [app]; rewrite ?app_nil_r; repeat split; reflexivity.
Qed.

(** X5.  Once fullness is marked in a chat with a migrated predecessor,
    every later request for a further page goes to the migrated source,
    whatever happened in between, a new search included. *)
Theorem further_pages_come_from_migrated_once_full
  (es : list ApiSearch.Event) (s : ApiSearch.t) :
  ApiSearch.migratedSearch s = true ->
  ApiSearch.isFull s = true ->
  snd (ApiSearch.searchMore (fst (ApiSearch.run es s)))
  = [ApiSearch.SearchMore ApiSearch.Migrated].
Proof.
  intros Hm Hf.
  pose proof (run_keeps_fullness es s Hf) as F.
  assert (S : settled true s) by (split; [exact Hm|discriminate]).
  destruct (run_settled true es s S) as [M _].
  unfold ApiSearch.searchMore. now rewrite M, F.
Qed.

Lemma further_pages_come_from_migrated_once_full_witness :
  snd (ApiSearch.searchMore
         (fst (ApiSearch.run
                 [ApiSearch.Clear; ApiSearch.Search (request "b");
                  ApiSearch.PrimaryPage threeOfTen]
                 (fst (ApiSearch.run firstSearch (ApiSearch.init true))))))
  = [ApiSearch.SearchMore ApiSearch.Migrated].
Proof.
  apply further_pages_come_from_migrated_once_full; reflexivity.
Defined.

(** * Further properties of the list and of the orchestrator *)

Lemma keeps_andThen {A} (part : Inner.t -> A) h1 h2 :
  keeps part h1 -> keeps part h2 -> keeps part (Inner.andThen h1 h2).
Proof. intros H1 H2 s. rewrite andThen_fst, H2, H1. reflexivity. Qed.

Lemma keeps_forEach {A B} (part : Inner.t -> A) (h : B -> Inner.Handler) l :
  (forall b, keeps part (h b)) -> keeps part (Inner.forEach h l).
Proof.
  intros H. induction l as [|b l IH]; cbn [Inner.forEach].
  - intros s. reflexivity.
  - apply keeps_andThen; auto.
Qed.

Lemma showItem_keeps_rows own i : keeps Inner.listRows (Inner.showItem own i).
Proof. intros s. rewrite showItem_eq. now destruct s. Qed.

Lemma showItem_keeps_bar own i : keeps Inner.bottomBar (Inner.showItem own i).
Proof. intros s. rewrite showItem_eq. now destruct s. Qed.

Lemma onBottomBar_keeps_rows own op :
  keeps Inner.listRows (Inner.onBottomBar own op).
Proof.
  intros s. unfold Inner.onBottomBar.
  destruct (op (Inner.bottomBar s)) as [b produced].
  rewrite keeps_forEach; [now destruct s|].
  intros i. apply keeps_andThen;
    [intros x; reflexivity|apply showItem_keeps_rows].
Qed.

Lemma listShowItem_keeps_rows own id :
  keeps Inner.listRows (Inner.listShowItem own id).
Proof.
  intros s. unfold Inner.listShowItem, Inner.withApiData.
  destruct (Inner.findIndex _ _); [apply onBottomBar_keeps_rows|reflexivity].
Qed.

Lemma appendRow_all own ids rows :
  fold_left (Inner.appendRow own) ids rows = rows ++ filter own ids.
Proof.
  revert rows. induction ids as [|id ids IH]; intros rows; cbn.
  - now rewrite app_nil_r.
  - rewrite IH. unfold Inner.appendRow.
    destruct (own id); [now rewrite <- app_assoc|reflexivity].
Qed.

(** X6.  After [addItems] the list holds, in their order, the given
    messages that the message store knows, behind the rows it had, or
    alone when the list was to be cleared. *)
Theorem addItems_rows own (ids : MessageIdsList) (clear : bool) (s : Inner.t) :
  Inner.listRows (fst (Inner.addItems own ids clear s)) =
  (if clear then [] else Inner.listRows s) ++ filter own ids.
Proof.
  unfold Inner.addItems. rewrite !andThen_fst.
  set (s2 := fst (Inner.update _ _)).
  assert (R : Inner.listRows s2
              = (if clear then [] else Inner.listRows s) ++ filter own ids).
  { unfold s2. destruct clear, s; cbn; apply appendRow_all. }
  destruct (Inner.listRows s2) eqn:E.
  - rewrite listShowItem_keeps_rows. congruence.
  - cbn [Inner.skip fst]. congruence.
Qed.

Lemma addItems_filled
  own (ids : MessageIdsList) (clear : bool) (s : Inner.t) :
  (if clear then [] else Inner.listRows s) ++ filter own ids <> [] ->
  Inner.addItems own ids clear s =
  (Inner.setListRows
     ((if clear then [] else Inner.listRows s) ++ filter own ids) s,
   if clear then [Inner.ResetScroll] else []).
Proof.
  intros H. unfold Inner.addItems.
  destruct s as [tb bb rows api pj]. cbn [Inner.listRows] in H.
  destruct clear; cbv [Inner.andThen Inner.emit Inner.update Inner.skip
                       Inner.setListRows Inner.listRows Inner.topBar
                       Inner.bottomBar Inner.apiSearch Inner.pendingJump];
    rewrite appendRow_all;
    (destruct (_ ++ filter own ids) eqn:E; [contradiction|reflexivity]).
Qed.

(** X7.  When the list has a row after [addItems], nothing but the list
    changed: no position is selected, no jump is made, and the scroll is
    reset exactly when the list was to be cleared. *)
Theorem addItems_with_rows_only_fills_the_list
  own (ids : MessageIdsList) (clear : bool) (s : Inner.t) :
  (if clear then [] else Inner.listRows s) ++ filter own ids <> [] ->
  Inner.addItems own ids clear s =
  (Inner.setListRows
     ((if clear then [] else Inner.listRows s) ++ filter own ids) s,
   if clear then [Inner.ResetScroll] else []).
Proof. apply addItems_filled. Qed.

Lemma addItems_with_rows_only_fills_the_list_witness :
  Inner.addItems everyMessage [msgP 4; msgP 5] false threeLoaded =
  (Inner.setListRows (Inner.listRows threeLoaded ++ [msgP 4; msgP 5])
     threeLoaded, []).
Proof.
  apply (addItems_with_rows_only_fills_the_list everyMessage
           [msgP 4; msgP 5] false threeLoaded).
  discriminate.
Defined.

Lemma FullMsgId_eqb_eq a b : FullMsgId_eqb a b = true <-> a = b.
Proof.
  destruct a as [pa ma], b as [pb mb]. unfold FullMsgId_eqb. cbn.
  rewrite andb_true_iff, !Z.eqb_eq. split; [intros [-> ->]|intros [= -> ->]];
    auto.
Qed.

Lemma findIndex_nth id l pos d :
  Inner.findIndex id l = Some pos -> nth pos l d = id.
Proof.
  revert pos. induction l as [|m l IH]; intros pos; cbn; [discriminate|].
  destruct (FullMsgId_eqb m id) eqn:E.
  - intros [= <-]. now apply FullMsgId_eqb_eq.
  - destruct (Inner.findIndex id l) as [p|]; cbn; [|discriminate].
    intros [= <-]. now apply IH.
Qed.

Lemma findIndex_None id l : ~ In id l -> Inner.findIndex id l = None.
Proof.
  induction l as [|m l IH]; cbn; [reflexivity|]. intros H.
  destruct (FullMsgId_eqb m id) eqn:E.
  - apply FullMsgId_eqb_eq in E. tauto.
  - rewrite IH by tauto. reflexivity.
Qed.

(** X8.  Activating the row of a loaded message selects its position in
    the bottom bar and jumps to that very message: one request for its
    index, a call for a further page when it is the last loaded one and
    more are known, the jump, and the list is hidden.  No pending jump is
    left. *)
Theorem row_click_jumps_to_its_message own (id : FullMsgId) (s : Inner.t) :
  let a := Inner.apiSearch s in
  let size := Z.of_nat (List.length (loaded a)) in
  In id (loaded a) ->
  own id = true ->
  size <= Int.max_value ->
  exists pos,
    Inner.findIndex id (loaded a) = Some pos /\
    nth_error (loaded a) pos = Some id /\
    BottomBar.barCurrent (Inner.bottomBar (fst (Inner.step own (Inner.RowClicked id) s)))
    = Z.of_nat pos + 1 /\
    Inner.pendingJump (fst (Inner.step own (Inner.RowClicked id) s))
    = Inner.noPendingJump /\
    snd (Inner.step own (Inner.RowClicked id) s) =
    [Inner.ShowItemRequested (Z.of_nat pos)] ++
    (if (size - 1 <=? Z.of_nat pos) && negb (size =? combinedTotal a)
     then [Inner.RemoteSearchMore (activeSource a)] else []) ++
    [Inner.JumpToChatListEntry id; Inner.HideList].
Proof.
  cbv zeta. intros Hin Hown Hmax.
  destruct (Inner.findIndex id (loaded (Inner.apiSearch s))) as [pos|] eqn:F.
  2:{ exfalso. clear - Hin F. induction (loaded (Inner.apiSearch s)) as [|m l IH];
        [contradiction|]. cbn in F. destruct (FullMsgId_eqb m id) eqn:E;
        [discriminate|]. destruct Hin as [->|Hin].
      - assert (FullMsgId_eqb id id = true) by now apply FullMsgId_eqb_eq.
        congruence.
      - destruct (Inner.findIndex id l); [discriminate|]. now apply IH. }
  exists pos. pose proof (findIndex_lt _ _ _ F) as Hlt.
  pose proof (findIndex_nth _ _ _ nullMsgId F) as Hnth.
  assert (Hwrap : Int.wrap (Z.of_nat pos + 1) = Z.of_nat pos + 1).
  { apply wrap_in_range.
    unfold Int.in_range, Int.min_value, Int.max_value in *. lia. }
  assert (Hidx : Int.sub (Z.of_nat pos + 1) 1 = Z.of_nat pos).
  { unfold Int.sub. replace (Z.of_nat pos + 1 - 1) with (Z.of_nat pos) by lia.
    apply wrap_in_range.
    unfold Int.in_range, Int.min_value, Int.max_value in *. lia. }
  split; [reflexivity|]. split.
  { rewrite <- Hnth. apply nth_error_nth'. exact Hlt. }
  cbn [Inner.step]. unfold Inner.listShowItem, Inner.withApiData.
  fold (loaded (Inner.apiSearch s)). rewrite F, Hwrap.
  unfold Inner.onBottomBar, BottomBar.setCurrent, BottomBar.force_assign.
  cbn [Inner.forEach]. rewrite Hidx.
  rewrite !andThen_fst, !andThen_snd. cbn [Inner.emit Inner.skip fst snd].
  rewrite showItem_eq. cbv zeta.
  destruct s as [tb bb rows api pj].
  cbn [Inner.setBottomBar Inner.apiSearch Inner.bottomBar Inner.topBar
       Inner.listRows Inner.pendingJump fst snd Inner.setPendingJump] in *.
  fold (loaded api). unfold combinedTotal.
  rewrite of_size_small by exact Hmax.
  set (n := Z.of_nat (List.length (loaded api))) in *.
  assert (Hsub : Int.sub n 1 = n - 1).
  { apply wrap_in_range.
    unfold Int.in_range, Int.min_value, Int.max_value in *. lia. }
  rewrite Hsub.
  replace ((n <=? Z.of_nat pos) || (Z.of_nat pos <? 0)) with false
    by (symmetry; apply orb_false_iff; split;
        [apply Z.leb_gt|apply Z.ltb_ge]; lia).
  rewrite Nat2Z.id, Hnth, Hown, app_nil_r.
  repeat split.
Qed.

Lemma row_click_jumps_to_its_message_witness :
  exists pos,
    Inner.findIndex (msgP 2) (loaded (Inner.apiSearch threeLoaded)) = Some pos /\
    BottomBar.barCurrent
      (Inner.bottomBar
         (fst (Inner.step everyMessage (Inner.RowClicked (msgP 2)) threeLoaded)))
    = Z.of_nat pos + 1.
Proof.
  destruct (row_click_jumps_to_its_message everyMessage (msgP 2) threeLoaded)
    as (pos & F & _ & C & _).
  - right. left. reflexivity.
  - reflexivity.
  - vm_compute. discriminate.
  - exists pos. split; [exact F|exact C].
Defined.

(** X9.  Activating a row whose message is not among the loaded ones does
    nothing at all. *)
Theorem row_click_of_unloaded_message_is_ignored
  own (id : FullMsgId) (s : Inner.t) :
  ~ In id (loaded (Inner.apiSearch s)) ->
  Inner.step own (Inner.RowClicked id) s = (s, []).
Proof.
  intros H. cbn [Inner.step]. unfold Inner.listShowItem, Inner.withApiData.
  fold (loaded (Inner.apiSearch s)). now rewrite findIndex_None.
Qed.

Lemma row_click_of_unloaded_message_is_ignored_witness :
  Inner.step everyMessage (Inner.RowClicked (msgP 9)) threeLoaded
  = (threeLoaded, []).
Proof.
  apply row_click_of_unloaded_message_is_ignored.
  vm_compute. intros [H|[H|[H|[]]]]; discriminate H.
Defined.

Lemma fetchMoreCalls_app a b :
  fetchMoreCalls (a ++ b) = fetchMoreCalls a ++ fetchMoreCalls b.
Proof. unfold fetchMoreCalls. apply flat_map_app. Qed.

Lemma fetchesNothing_andThen h1 h2 :
  fetchesNothing h1 -> fetchesNothing h2 ->
  fetchesNothing (Inner.andThen h1 h2).
Proof.
  intros H1 H2 s A. destruct (H1 s A) as [F1 K1].
  assert (A1 : allLoaded (Inner.apiSearch (fst (h1 s)))) by now rewrite K1.
  destruct (H2 _ A1) as [F2 K2].
  rewrite andThen_snd, andThen_fst, fetchMoreCalls_app, F1, F2, K2, K1.
  split; reflexivity.
Qed.

Lemma fetchesNothing_forEach {B} (h : B -> Inner.Handler) l :
  (forall b, fetchesNothing (h b)) -> fetchesNothing (Inner.forEach h l).
Proof.
  intros H. induction l as [|b l IH]; cbn [Inner.forEach].
  - intros s _. split; reflexivity.
  - apply fetchesNothing_andThen; auto.
Qed.

Lemma showItem_fetchesNothing own i : fetchesNothing (Inner.showItem own i).
Proof.
  intros s A. split; [|apply showItem_keepsMerger].
  rewrite showItem_eq. cbv zeta. cbn [snd].
  unfold allLoaded, loaded, combinedTotal in A. rewrite A, Z.eqb_refl.
  rewrite andb_false_r. cbn [app].
  repeat break_if; reflexivity.
Qed.

Lemma onBottomBar_fetchesNothing own op :
  fetchesNothing (Inner.onBottomBar own op).
Proof.
  intros s A. unfold Inner.onBottomBar.
  destruct (op (Inner.bottomBar s)) as [b produced].
  assert (A' : allLoaded (Inner.apiSearch (Inner.setBottomBar b s)))
    by now destruct s.
  destruct (fetchesNothing_forEach
              (fun i => Inner.andThen (Inner.emit (Inner.ShowItemRequested i))
                                      (Inner.showItem own i))
              produced) with (s := Inner.setBottomBar b s) as [F K];
    [|exact A'|].
  - intros i. apply fetchesNothing_andThen;
      [intros x _; split; reflexivity|apply showItem_fetchesNothing].
  - split; [exact F|]. rewrite K. now destruct s.
Qed.

Lemma navigation_fetchesNothing own e :
  navigates e -> fetchesNothing (Inner.step own e).
Proof.
  destruct e; cbn [navigates]; try contradiction; intros _; cbn [Inner.step].
  - apply onBottomBar_fetchesNothing.
  - apply onBottomBar_fetchesNothing.
  - intros s _. unfold Inner.showListClicked.
    destruct (BottomBar.showListTransparent _); split; reflexivity.
  - intros s A. unfold Inner.listShowItem, Inner.withApiData.
    destruct (Inner.findIndex _ _);
      [now apply onBottomBar_fetchesNothing|split; reflexivity].
  - intros s A. unfold Inner.searchMoreRequested, Inner.withApiData.
    unfold allLoaded, loaded, combinedTotal in A.
    rewrite A, Z.eqb_refl. split; reflexivity.
Qed.

(** X10.  With everything loaded (the loaded count equals the total), no
    click on the bottom bar, no activated row and no scrolling of the
    list asks for a further page. *)
Theorem no_fetch_when_all_is_loaded own (e : Inner.Event) (s : Inner.t) :
  navigates e ->
  allLoaded (Inner.apiSearch s) ->
  fetchMoreCalls (snd (Inner.step own e s)) = [].
Proof. intros N A. now apply navigation_fetchesNothing. Qed.

Lemma no_fetch_when_all_is_loaded_witness :
  let s :=
    fst (Inner.step everyMessage
           (Inner.PrimaryPage (mkFoundMessages 2 [msgP 1; msgP 2] "q0"))
           (Inner.init false)) in
  fetchMoreCalls (snd (Inner.step everyMessage Inner.ClickNext s)) = [] /\
  fetchMoreCalls (snd (Inner.step everyMessage Inner.LoadMoreRows s)) = [].
Proof.
  cbv zeta. split; apply no_fetch_when_all_is_loaded;
    try exact I; reflexivity.
Defined.

(** X11.  The bottom bar and the list never change the merged results:
    after a click, an activated row or a scroll the merger is what it
    was. *)
Theorem navigation_keeps_the_results own (e : Inner.Event) (s : Inner.t) :
  navigates e ->
  Inner.apiSearch (fst (Inner.step own e s)) = Inner.apiSearch s.
Proof.
  destruct e; cbn [navigates]; try contradiction; intros _; cbn [Inner.step].
  - apply onBottomBar_keepsMerger.
  - apply onBottomBar_keepsMerger.
  - unfold Inner.showListClicked.
    now destruct (BottomBar.showListTransparent _).
  - apply listShowItem_keepsMerger.
  - unfold Inner.searchMoreRequested, Inner.withApiData.
    break_if; [|reflexivity].
    unfold Inner.apiSearchMore, ApiSearch.searchMore.
    destruct s as [tb bb rows api pj]. cbn. now destruct (_ && _).
Qed.

Lemma navigation_keeps_the_results_witness :
  Inner.apiSearch
    (fst (Inner.step everyMessage Inner.LoadMoreRows threeLoaded))
  = Inner.apiSearch threeLoaded.
Proof. apply navigation_keeps_the_results. exact I. Defined.

(** * Further properties of the two bars *)

Lemma force_assign_displays v b :
  displaysPosition (fst (BottomBar.force_assign v b)).
Proof.
  destruct b as [t cur nx pv sl ct]. unfold displaysPosition. bar_simpl.
  repeat split. destruct (t <? 0), (t =? 0); reflexivity.
Qed.

Lemma barStep_displays o b :
  displaysPosition b -> displaysPosition (fst (barStep o b)).
Proof.
  intros H. destruct o as [n|c|[|]]; cbn [barStep BottomBar.click].
  - unfold BottomBar.setTotal, BottomBar.setCurrent.
    apply force_assign_displays.
  - apply force_assign_displays.
  - unfold BottomBar.clickNext, BottomBar.stepBy, BottomBar.assign.
    repeat break_if; cbn [fst]; auto using force_assign_displays.
  - unfold BottomBar.clickPrevious, BottomBar.stepBy, BottomBar.assign.
    repeat break_if; cbn [fst]; auto using force_assign_displays.
Qed.

(** X12.  Whatever is done to the bottom bar, in any order, it shows what
    its total and position say: the next button is disabled exactly when
    [current <= 0] or [current >= total], the previous button exactly when
    [current <= 1], the show-list button when both are, and the counter
    is empty for a negative total, "none" for zero and "current of total"
    otherwise. *)
Theorem bar_displays_its_position (os : list BarOp) :
  displaysPosition (fst (barRun os BottomBar.init)).
Proof.
  assert (G : forall b, displaysPosition b ->
                        displaysPosition (fst (barRun os b))).
  { induction os as [|o os IH]; intros b H; [exact H|].
    cbn [barRun]. pose proof (barStep_displays o b H) as H1.
    destruct (barStep o b) as [b1 o1]. cbn [fst] in H1.
    specialize (IH b1 H1). now destruct (barRun os b1). }
  apply G. unfold displaysPosition. cbn. repeat split.
Qed.

Lemma click_emits_inside n c b :
  1 <= n <= Int.max_value ->
  consistent n b ->
  Forall (fun i => 0 <= i < n) (snd (BottomBar.click c b)).
Proof.
  intros Hn. destruct b as [t cur nx pv sl ct].
  unfold consistent. cbn. intros (-> & Hc & -> & ->).
  assert (Hsub : forall v, 1 <= v <= n -> Int.sub v 1 = v - 1).
  { intros v Hv. apply wrap_in_range.
    unfold Int.in_range, Int.min_value, Int.max_value in *. lia. }
  assert (Hup : n <= cur \/ Int.add cur 1 = cur + 1).
  { destruct (Z.le_gt_cases n cur); [now left|right].
    apply wrap_in_range.
    unfold Int.in_range, Int.min_value, Int.max_value in *. lia. }
  assert (Hdown : Int.add cur (-1) = cur - 1).
  { apply wrap_in_range.
    unfold Int.in_range, Int.min_value, Int.max_value in *. lia. }
  destruct c; bar_simpl.
  - destruct (cur <=? 0) eqn:E0, (n <=? cur) eqn:E1; cbn [orb]; bar_simpl;
      bool_facts; try (constructor; fail).
    destruct Hup as [?| ->]; [lia|].
    break_if; bar_simpl; constructor; [|constructor].
    rewrite Hsub by lia. lia.
  - destruct (cur <=? 1) eqn:E0; bar_simpl; bool_facts;
      try (constructor; fail).
    rewrite Hdown.
    break_if; bar_simpl; constructor; [|constructor].
    rewrite Hsub by lia. lia.
Qed.

(** X13.  [setTotal n] asks to show index 0, and after it, for
    [n >= 1], every index that stepping forward and backward asks to show
    lies in [0 .. n - 1]: the steps never ask for a result beyond the
    total. *)
Theorem steps_ask_for_indices_below_total
  (b0 : BottomBar.t) (n : Z) (cs : list BottomBar.Step) :
  1 <= n <= Int.max_value ->
  snd (BottomBar.setTotal n b0) = [0] /\
  Forall (fun i => 0 <= i < n)
    (snd (BottomBar.clicks cs (fst (BottomBar.setTotal n b0)))).
Proof.
  intros Hn. split; [reflexivity|].
  pose proof (setTotal_consistent n b0) as H.
  generalize dependent (fst (BottomBar.setTotal n b0)).
  induction cs as [|c cs IH]; intros b H; [constructor|].
  cbn [BottomBar.clicks].
  pose proof (click_emits_inside n c b Hn H) as E.
  pose proof (click_consistent n c b (proj2 Hn) H) as H1.
  destruct (BottomBar.click c b) as [b1 o1]. cbn [fst snd] in *.
  specialize (IH b1 H1). destruct (BottomBar.clicks cs b1) as [b2 o2].
  cbn [snd] in *. apply Forall_app. split; assumption.
Qed.

Lemma steps_ask_for_indices_below_total_witness :
  Forall (fun i => 0 <= i < 3)
    (snd (BottomBar.clicks
            [BottomBar.Forward; BottomBar.Forward; BottomBar.Forward;
             BottomBar.Backward]
            (fst (BottomBar.setTotal 3 BottomBar.init)))).
Proof.
  apply (steps_ask_for_indices_below_total BottomBar.init 3).
  unfold Int.max_value. lia.
Defined.

Ltac top_simpl :=
  cbv beta iota zeta delta
    [topBarStep TopBar.queryChanged TopBar.submitted TopBar.searchTimerFired
     TopBar.itemRemoved TopBar.setFrom TopBar.clearItems
     TopBar.requestSearchDelayed TopBar.requestSearch
     TopBar.setSelectQuery TopBar.setSelectItems TopBar.setFromPeer
     TopBar.setSearchTimerActive TopBar.setTypedRequests
     TopBar.selectQuery TopBar.selectItems TopBar.fromPeer
     TopBar.searchTimerActive TopBar.typedRequests
     requestsFired flat_map fst snd].

(** X14.  Whatever happens to the top bar, it emits at most one request,
    and the request carries the text and the sender that the bar holds
    when the event is over. *)
Theorem emitted_request_is_the_current_pair (e : TopBarEvent) (s : TopBar.t) :
  let s' := fst (topBarStep e s) in
  requestsFired (snd (topBarStep e s)) = [] \/
  requestsFired (snd (topBarStep e s))
  = [mkSearchRequest (TopBar.selectQuery s') (TopBar.fromPeer s')].
Proof.
  destruct s as [q items f timer typed].
  destruct e as [q'| | |id|[p|]]; top_simpl;
    repeat (break_if; top_simpl); cbn [app]; auto.
Qed.

Lemma topBarStep_cache e s :
  TopBar.typedRequests (fst (topBarStep e s)) =
  TopBar.typedRequests s ++
  match e with
  | Submit => [mkSearchRequest (TopBar.selectQuery s) (TopBar.fromPeer s)]
  | TimerFires =>
      if TopBar.searchTimerActive s
      then [mkSearchRequest (TopBar.selectQuery s) (TopBar.fromPeer s)]
      else []
  | _ => []
  end.
Proof.
  destruct s as [q items f timer typed].
  destruct e as [q'| | |id|[p|]]; top_simpl;
    repeat (break_if; top_simpl); rewrite ?app_nil_r; reflexivity.
Qed.

Lemma topBarStep_cached_is_fired e s r :
  In r (TopBar.typedRequests (fst (topBarStep e s))) ->
  In r (TopBar.typedRequests s) \/ In r (requestsFired (snd (topBarStep e s))).
Proof.
  rewrite topBarStep_cache. intros H. apply in_app_or in H.
  destruct H as [H|H]; [now left|right].
  destruct s as [q items f timer typed].
  destruct e as [q'| | |id|[p|]]; try contradiction; top_simpl;
    cbn [TopBar.searchTimerActive TopBar.selectQuery TopBar.fromPeer] in H;
    repeat (break_if; top_simpl); try contradiction; exact H.
Qed.

Lemma topBarRun_cons e es s :
  topBarRun (e :: es) s =
  (fst (topBarRun es (fst (topBarStep e s))),
   snd (topBarStep e s) ++ snd (topBarRun es (fst (topBarStep e s)))).
Proof.
  cbn [topBarRun]. destruct (topBarStep e s) as [s1 o1]. cbn [fst snd].
  now destruct (topBarRun es s1).
Qed.

Lemma requestsFired_app a b :
  requestsFired (a ++ b) = requestsFired a ++ requestsFired b.
Proof. unfold requestsFired. apply flat_map_app. Qed.

(** X15.  The cache of typed requests only grows, at its end, and only by
    requests that the bar emitted; typing, removing the sender's chip and
    choosing a sender leave it as it is. *)
Theorem cache_grows_by_emitted_requests
  (es : list TopBarEvent) (s : TopBar.t) :
  (exists added,
     TopBar.typedRequests (fst (topBarRun es s))
     = TopBar.typedRequests s ++ added /\
     forall r, In r added -> In r (requestsFired (snd (topBarRun es s)))) /\
  (Forall (fun e => e <> Submit /\ e <> TimerFires) es ->
   TopBar.typedRequests (fst (topBarRun es s)) = TopBar.typedRequests s).
Proof.
  revert s. induction es as [|e es IH]; intros s.
  - split; [|reflexivity]. exists []. cbn. rewrite app_nil_r. tauto.
  - rewrite topBarRun_cons. cbn [fst snd].
    destruct (IH (fst (topBarStep e s))) as [(added & E & F) Q]. split.
    + rewrite E, topBarStep_cache, <- app_assoc. eexists. split; [reflexivity|].
      intros r H. rewrite requestsFired_app. apply in_or_app.
      apply in_app_or in H. destruct H as [H|H]; [left|right; now apply F].
      destruct (topBarStep_cached_is_fired e s r) as [C|C]; [| |exact C].
      * rewrite topBarStep_cache. apply in_or_app. now right.
      * clear - H. destruct s as [q items f timer typed].
        destruct e as [q'| | |id|[p|]]; try contradiction;
          cbn [TopBar.searchTimerActive TopBar.selectQuery TopBar.fromPeer] in H;
          top_simpl; repeat (break_if; top_simpl); try contradiction; exact H.
    + intros H. inversion H as [|? ? [H1 H2] Hes]; subst.
      rewrite (Q Hes), topBarStep_cache.
      destruct e; try contradiction; try apply app_nil_r; congruence.
Qed.

Lemma cache_grows_by_emitted_requests_witness :
  TopBar.typedRequests
    (fst (topBarRun [TypeQuery "a"; ChooseFrom (Some 7); RemoveItem 7]
            TopBar.init))
  = TopBar.typedRequests TopBar.init.
Proof.
  apply (proj2 (cache_grows_by_emitted_requests
                  [TypeQuery "a"; ChooseFrom (Some 7); RemoveItem 7]
                  TopBar.init)).
  repeat constructor; discriminate.
Defined.

(** X16.  A text change that hits the cache does not stop a timer that is
    running: the request is emitted at once, and once more when the timer
    fires, which also puts it into the cache a further time. *)
Theorem cache_hit_leaves_the_timer_running (s : TopBar.t) (q : string) :
  let hit := mkSearchRequest q (TopBar.fromPeer s) in
  TopBar.searchTimerActive s = true ->
  In hit (TopBar.typedRequests s) ->
  let changed := TopBar.queryChanged q s in
  let fired := TopBar.searchTimerFired (fst changed) in
  requestsFired (snd changed) = [hit] /\
  TopBar.searchTimerActive (fst changed) = true /\
  requestsFired (snd fired) = [hit] /\
  TopBar.typedRequests (fst fired) = TopBar.typedRequests s ++ [hit] /\
  TopBar.searchTimerActive (fst fired) = false.
Proof.
  cbv zeta. intros Ht Hin. apply typedBefore_In in Hin.
  destruct s as [q0 items f timer typed].
  cbn [TopBar.fromPeer TopBar.searchTimerActive TopBar.typedRequests] in *.
  subst timer. unfold TopBar.queryChanged, TopBar.requestSearchDelayed.
  cbn [TopBar.setSelectQuery TopBar.selectQuery TopBar.fromPeer
       TopBar.typedRequests TopBar.selectItems TopBar.searchTimerActive].
  rewrite Hin. repeat split.
Qed.

Lemma cache_hit_leaves_the_timer_running_witness :
  let s := TopBar.mk "ali" [] None true [mkSearchRequest "alice" None] in
  requestsFired
    (snd (TopBar.searchTimerFired (fst (TopBar.queryChanged "alice" s))))
  = [mkSearchRequest "alice" None].
Proof.
  cbv zeta.
  apply (cache_hit_leaves_the_timer_running
           (TopBar.mk "ali" [] None true [mkSearchRequest "alice" None])
           "alice").
  - reflexivity.
  - left. reflexivity.
Defined.

Lemma buttonsStep_in_sync historyPeer e s :
  snd s = fromValueArrived historyPeer (TopBar.fromPeer (fst s)) ->
  snd (buttonsStep historyPeer e s)
  = fromValueArrived historyPeer (TopBar.fromPeer (fst (buttonsStep historyPeer e s))).
Proof.
  intros H. unfold buttonsStep. cbn [fst snd].
  destruct (PeerPtr_eqb _ _) eqn:E; [|reflexivity].
  apply PeerPtr_eqb_eq in E. now rewrite <- E.
Qed.

(** X17.  The date button of the bottom bar is shown exactly while no
    sender is set, and the sender button exactly while no sender is set in
    a chat that is a group or a megagroup, whatever the user does at the
    top bar. *)
Theorem optional_buttons_follow_the_sender
  (historyPeer : option PeerData) (es : list TopBarEvent) :
  let s := buttonsRun historyPeer es (TopBar.init, buttonsInit historyPeer) in
  let noFrom :=
    match TopBar.fromPeer (fst s) with None => true | Some _ => false end in
  jumpToDateShown (snd s) = noFrom /\
  chooseFromUserShown (snd s) =
  (match historyPeer with
   | Some p => isChat p || isMegagroup p
   | None => false
   end && noFrom).
Proof.
  cbv zeta.
  assert (G : forall s,
             snd s = fromValueArrived historyPeer (TopBar.fromPeer (fst s)) ->
             snd (buttonsRun historyPeer es s)
             = fromValueArrived historyPeer
                 (TopBar.fromPeer (fst (buttonsRun historyPeer es s)))).
  { induction es as [|e es IH]; intros s H; [exact H|].
    cbn [buttonsRun]. apply IH, buttonsStep_in_sync, H. }
  rewrite (G (TopBar.init, buttonsInit historyPeer) eq_refl).
  split; reflexivity.
Qed.

(** * New results, end to end *)

Lemma fresh_primary_page own data (s : Inner.t) :
  nextToken data <> nextToken (ApiSearch.concatedFound (Inner.apiSearch s)) ->
  ApiSearch.waitingForTotal (Inner.apiSearch s) = false ->
  let a' := fst (ApiSearch.primaryFound data (Inner.apiSearch s)) in
  Inner.step own (Inner.PrimaryPage data) s =
  Inner.andThen (Inner.newFounds own) Inner.skip (Inner.setApiSearch a' s) /\
  combinedTotal a' = total data /\
  nextToken (ApiSearch.concatedFound a') = nextToken data /\
  (exists folded, loaded a' = messages data ++ folded).
Proof.
  intros Ht Hw. apply String.eqb_neq in Ht. cbv zeta.
  cbn [Inner.step]. unfold Inner.onApiSearch.
  destruct s as [tb bb rows [mg [th mh kh] [tc mc kc] w f] pj].
  destruct data as [td md kd]. cbn in Ht, Hw. subst w.
  cbn [Inner.apiSearch]. api_simpl. rewrite Ht. api_simpl.
  destruct (td =? Int.of_size (List.length md)); api_simpl;
    (split; [|split; [|split]]); try reflexivity.
  - now exists mh.
  - exists []. now rewrite app_nil_r.
Qed.

Lemma newFounds_with_first own (m : FullMsgId) (rest : MessageIdsList)
  (s : Inner.t) :
  let a := Inner.apiSearch s in
  let size := Z.of_nat (List.length (loaded a)) in
  loaded a = m :: rest ->
  own m = true ->
  size <= Int.max_value ->
  Inner.newFounds own s =
  (Inner.mk (Inner.topBar s)
     (fst (BottomBar.setTotal (combinedTotal a) (Inner.bottomBar s)))
     (filter own (loaded a)) a Inner.noPendingJump,
   [Inner.ShowItemRequested 0] ++
   (if (size - 1 <=? 0) && negb (size =? combinedTotal a)
    then [Inner.RemoteSearchMore (activeSource a)] else []) ++
   [Inner.JumpToChatListEntry m; Inner.HideList; Inner.ResetScroll]).
Proof.
  cbv zeta. destruct s as [tb bb rows a pj].
  cbn [Inner.apiSearch Inner.topBar Inner.bottomBar].
  intros Hl Hown Hmax.
  assert (Hsize : Int.of_size (List.length (loaded a))
                  = Z.of_nat (List.length (loaded a)))
    by now apply of_size_small.
  assert (Hpos : 0 < Z.of_nat (List.length (loaded a)))
    by (rewrite Hl; cbn [List.length]; lia).
  cbv beta iota zeta delta
    [Inner.newFounds Inner.andThen Inner.withApiData Inner.onBottomBar
     BottomBar.setTotal BottomBar.setCurrent BottomBar.force_assign
     Inner.forEach Inner.emit Inner.skip fst snd Inner.bottomBar
     Inner.apiSearch Inner.setBottomBar Inner.topBar Inner.listRows
     Inner.pendingJump].
  replace (Int.sub 1 1) with 0 by reflexivity.
  rewrite showItem_eq.
  cbv beta iota zeta delta
    [Inner.apiSearch Inner.setPendingJump Inner.topBar Inner.bottomBar
     Inner.listRows Inner.pendingJump].
  fold (loaded a). fold (combinedTotal a). rewrite Hsize.
  set (n := Z.of_nat (List.length (loaded a))) in *.
  assert (Hsub : Int.sub n 1 = n - 1).
  { apply wrap_in_range.
    unfold Int.in_range, Int.min_value, Int.max_value in *. lia. }
  rewrite Hsub.
  replace ((n <=? 0) || (0 <? 0)) with false
    by (symmetry; apply orb_false_iff; split;
        [apply Z.leb_gt|apply Z.ltb_ge]; lia).
  cbn [Z.to_nat].
  replace (nth 0 (loaded a) nullMsgId) with m by (now rewrite Hl).
  rewrite Hown.
  rewrite addItems_filled
    by (rewrite Hl; cbn [app filter]; rewrite Hown; discriminate).
  unfold Inner.setListRows.
  cbn [Inner.apiSearch Inner.topBar Inner.bottomBar Inner.listRows
       Inner.pendingJump app].
  f_equal. rewrite !app_nil_r, <- !app_assoc. reflexivity.
Qed.

(** X18.  When the first page of new results arrives with a message that
    the store knows at its head, and the merger does not wait for a
    migrated total: the bottom bar gets the total and position 1, the one
    jump made goes to that first message, the list is hidden, then reset
    and filled with the loaded messages that the store knows, and no
    pending jump is left.  A further page is asked for only when one
    message is loaded and the total differs from 1. *)
Theorem new_results_select_the_first_message
  own (data : FoundMessages) (m : FullMsgId) (rest : MessageIdsList)
  (s : Inner.t) :
  let a' := fst (ApiSearch.primaryFound data (Inner.apiSearch s)) in
  let size := Z.of_nat (List.length (loaded a')) in
  nextToken data <> nextToken (ApiSearch.concatedFound (Inner.apiSearch s)) ->
  ApiSearch.waitingForTotal (Inner.apiSearch s) = false ->
  messages data = m :: rest ->
  own m = true ->
  size <= Int.max_value ->
  let r := Inner.step own (Inner.PrimaryPage data) s in
  snd r =
  [Inner.ShowItemRequested 0] ++
  (if (size - 1 <=? 0) && negb (size =? total data)
   then [Inner.RemoteSearchMore (activeSource a')] else []) ++
  [Inner.JumpToChatListEntry m; Inner.HideList; Inner.ResetScroll] /\
  BottomBar.barTotal (Inner.bottomBar (fst r)) = total data /\
  BottomBar.barCurrent (Inner.bottomBar (fst r)) = 1 /\
  Inner.listRows (fst r) = filter own (loaded a') /\
  Inner.pendingJump (fst r) = Inner.noPendingJump /\
  Inner.apiSearch (fst r) = a'.
Proof.
  cbv zeta. intros Ht Hw Hm Hown Hmax.
  destruct (fresh_primary_page own data s Ht Hw) as (E & Htot & _ & folded & Hl).
  rewrite E. clear E.
  set (a' := fst (ApiSearch.primaryFound data (Inner.apiSearch s))) in *.
  rewrite Hm in Hl. cbn [app] in Hl. clearbody a'. clear Ht Hw.
  unfold Inner.andThen.
  rewrite (newFounds_with_first own m (rest ++ folded)
             (Inner.setApiSearch a' s))
    by (destruct s; assumption).
  destruct s as [tb bb rows api pj].
  cbn [Inner.skip Inner.setApiSearch Inner.apiSearch Inner.topBar
       Inner.bottomBar fst snd]. rewrite Htot.
  repeat split; try reflexivity.
  now rewrite app_nil_r.
Qed.

Lemma new_results_select_the_first_message_witness :
  snd (Inner.step everyMessage (Inner.PrimaryPage threeOfTen)
         (Inner.init false))
  = [Inner.ShowItemRequested 0; Inner.JumpToChatListEntry (msgP 1);
     Inner.HideList; Inner.ResetScroll].
Proof.
  destruct (new_results_select_the_first_message everyMessage threeOfTen
              (msgP 1) [msgP 2; msgP 3] (Inner.init false)) as [E _].
  - discriminate.
  - reflexivity.
  - reflexivity.
  - reflexivity.
  - vm_compute. discriminate.
  - exact E.
Defined.

Lemma newFounds_with_nothing own (s : Inner.t) :
  let a := Inner.apiSearch s in
  loaded a = [] ->
  Inner.newFounds own s =
  (Inner.mk (Inner.topBar s)
     (fst (BottomBar.setTotal (combinedTotal a) (Inner.bottomBar s)))
     [] a
     (Inner.mkPendingJump (nextToken (ApiSearch.concatedFound a)) 0),
   [Inner.ShowItemRequested 0] ++
   (if negb (0 =? combinedTotal a)
    then [Inner.RemoteSearchMore (activeSource a)] else []) ++
   [Inner.ResetScroll]).
Proof.
  cbv zeta. destruct s as [tb bb rows a pj].
  cbn [Inner.apiSearch Inner.topBar Inner.bottomBar]. intros Hl.
  cbv beta iota zeta delta
    [Inner.newFounds Inner.andThen Inner.withApiData Inner.onBottomBar
     BottomBar.setTotal BottomBar.setCurrent BottomBar.force_assign
     Inner.forEach Inner.emit Inner.skip fst snd Inner.bottomBar
     Inner.apiSearch Inner.setBottomBar Inner.topBar Inner.listRows
     Inner.pendingJump].
  replace (Int.sub 1 1) with 0 by reflexivity.
  rewrite showItem_eq.
  cbv beta iota zeta delta
    [Inner.apiSearch Inner.setPendingJump Inner.topBar Inner.bottomBar
     Inner.listRows Inner.pendingJump].
  fold (loaded a). fold (combinedTotal a). rewrite Hl.
  cbn [List.length]. replace (Int.of_size 0) with 0 by reflexivity.
  replace (Int.sub 0 1) with (-1) by reflexivity.
  cbn [Z.leb Z.ltb Z.compare orb andb].
  unfold Inner.addItems.
  cbv beta iota zeta delta
    [Inner.andThen Inner.emit Inner.update Inner.skip Inner.setListRows
     Inner.listRows Inner.topBar Inner.bottomBar Inner.apiSearch
     Inner.pendingJump fold_left Inner.listShowItem Inner.withApiData
     fst snd].
  fold (loaded a). rewrite Hl. cbn [Inner.findIndex Inner.skip app].
  f_equal. rewrite !app_nil_r. destruct (negb _); reflexivity.
Qed.

(** X19.  When new results arrive and nothing is loaded after them, and
    the merger does not wait for a migrated total: no jump is made; the
    bottom bar gets the total and position 1, the list is reset and
    empty, a further page is asked for exactly when the total is not 0,
    and the jump to index 0 is left pending under the page's token. *)
Theorem new_results_without_messages_leave_a_pending_jump
  own (data : FoundMessages) (s : Inner.t) :
  let a' := fst (ApiSearch.primaryFound data (Inner.apiSearch s)) in
  nextToken data <> nextToken (ApiSearch.concatedFound (Inner.apiSearch s)) ->
  ApiSearch.waitingForTotal (Inner.apiSearch s) = false ->
  loaded a' = [] ->
  let r := Inner.step own (Inner.PrimaryPage data) s in
  snd r =
  [Inner.ShowItemRequested 0] ++
  (if negb (0 =? total data)
   then [Inner.RemoteSearchMore (activeSource a')] else []) ++
  [Inner.ResetScroll] /\
  Inner.pendingJump (fst r) = Inner.mkPendingJump (nextToken data) 0 /\
  Inner.listRows (fst r) = [] /\
  BottomBar.barTotal (Inner.bottomBar (fst r)) = total data /\
  BottomBar.barCurrent (Inner.bottomBar (fst r)) = 1.
Proof.
  cbv zeta. intros Ht Hw Hl.
  destruct (fresh_primary_page own data s Ht Hw) as (E & Htot & Htok & _).
  rewrite E. clear E.
  set (a' := fst (ApiSearch.primaryFound data (Inner.apiSearch s))) in *.
  clearbody a'. clear Ht Hw. unfold Inner.andThen.
  rewrite (newFounds_with_nothing own (Inner.setApiSearch a' s))
    by (destruct s; assumption).
  destruct s as [tb bb rows api pj].
  cbn [Inner.skip Inner.setApiSearch Inner.apiSearch Inner.topBar
       Inner.bottomBar fst snd]. rewrite Htot, Htok.
  repeat split; try reflexivity.
  now rewrite app_nil_r.
Qed.

Lemma new_results_without_messages_leave_a_pending_jump_witness :
  Inner.pendingJump
    (fst (Inner.step everyMessage (Inner.PrimaryPage emptyPrimary)
            (Inner.init false)))
  = Inner.mkPendingJump "t1" 0.
Proof.
  destruct (new_results_without_messages_leave_a_pending_jump everyMessage
              emptyPrimary (Inner.init false)) as (_ & P & _).
  - discriminate.
  - reflexivity.
  - reflexivity.
  - exact P.
Defined.

(** X20.  A click on the enabled next button at position [current], with
    the message of index [current] loaded and known to the store: the
    position becomes [current + 1], the one jump made goes to that
    message, and a further page is asked for exactly when it is the last
    loaded one and the loaded count differs from the total. *)
Theorem next_click_jumps_to_the_next_message own (s : Inner.t) :
  let a := Inner.apiSearch s in
  let size := Z.of_nat (List.length (loaded a)) in
  let current := BottomBar.barCurrent (Inner.bottomBar s) in
  let next := nth (Z.to_nat current) (loaded a) nullMsgId in
  BottomBar.nextTransparent (Inner.bottomBar s) = false ->
  0 <= current < size ->
  size <= Int.max_value ->
  own next = true ->
  let r := Inner.step own Inner.ClickNext s in
  snd r =
  [Inner.ShowItemRequested current] ++
  (if (size - 1 <=? current) && negb (size =? combinedTotal a)
   then [Inner.RemoteSearchMore (activeSource a)] else []) ++
  [Inner.JumpToChatListEntry next; Inner.HideList] /\
  BottomBar.barCurrent (Inner.bottomBar (fst r)) = current + 1 /\
  Inner.pendingJump (fst r) = Inner.noPendingJump.
Proof.
  cbv zeta. destruct s as [tb [t cur nx pv sl ct] rows a pj].
  cbn [Inner.apiSearch Inner.bottomBar BottomBar.barCurrent
       BottomBar.nextTransparent].
  intros -> Hc Hmax Hown.
  assert (Hadd : Int.add cur 1 = cur + 1).
  { apply wrap_in_range.
    unfold Int.in_range, Int.min_value, Int.max_value in *. lia. }
  assert (Hidx : Int.sub (cur + 1) 1 = cur).
  { unfold Int.sub. replace (cur + 1 - 1) with cur by lia.
    apply wrap_in_range.
    unfold Int.in_range, Int.min_value, Int.max_value in *. lia. }
  assert (Hne : (cur + 1 =? cur) = false) by (apply Z.eqb_neq; lia).
  cbn [Inner.step].
  cbv beta iota zeta delta
    [Inner.onBottomBar BottomBar.clickNext BottomBar.stepBy BottomBar.assign
     BottomBar.force_assign BottomBar.nextTransparent BottomBar.barCurrent
     Inner.bottomBar].
  rewrite Hadd, Hne, Hidx.
  cbv beta iota zeta delta
    [Inner.forEach Inner.andThen Inner.emit Inner.skip fst snd].
  rewrite showItem_eq.
  cbv beta iota zeta delta
    [Inner.apiSearch Inner.setBottomBar Inner.setPendingJump Inner.topBar
     Inner.bottomBar Inner.listRows Inner.pendingJump fst snd].
  fold (loaded a). fold (combinedTotal a).
  rewrite of_size_small by exact Hmax.
  set (n := Z.of_nat (List.length (loaded a))) in *.
  assert (Hsub : Int.sub n 1 = n - 1).
  { apply wrap_in_range.
    unfold Int.in_range, Int.min_value, Int.max_value in *. lia. }
  rewrite Hsub.
  replace ((n <=? cur) || (cur <? 0)) with false
    by (symmetry; apply orb_false_iff; split;
        [apply Z.leb_gt|apply Z.ltb_ge]; lia).
  rewrite Hown. rewrite !app_nil_r.
  repeat split.
Qed.

Lemma next_click_jumps_to_the_next_message_witness :
  let s := fst (Inner.newFounds everyMessage threeLoaded) in
  snd (Inner.step everyMessage Inner.ClickNext s)
  = [Inner.ShowItemRequested 1; Inner.JumpToChatListEntry (msgP 2);
     Inner.HideList].
Proof.
  cbv zeta.
  destruct (next_click_jumps_to_the_next_message everyMessage
              (fst (Inner.newFounds everyMessage threeLoaded))) as [E _].
  - reflexivity.
  - vm_compute. split; [discriminate|reflexivity].
  - vm_compute. discriminate.
  - reflexivity.
  - exact E.
Defined.
